(** * PdfReport: the numeric core of the photovoltaic study report

    Shallow embedding of the computations of [src/components/PdfReport.tsx]:
    the report-value fallbacks, the per-MPPT parallel string count and the
    gPV fuse rule, the cumulated production voltage drop, the subscription
    note, and [getRecommendedMargins].

    It also covers the material rows and their pages, the page numbers, and
    the inverter documents of [projectDocs].

    JavaScript numbers are IEEE 754 binary64 values, here the primitive
    [float] of the kernel, whose operations are the ones the runtime uses.
    String counts and millimetre margins are small integers that binary64
    represents exactly; they are kept as [nat] and [Z]. *)

From Stdlib Require Import Floats ZArith String List.
From Equations Require Import Equations.
From stdpp Require Import gmap strings list.

Local Open Scope string_scope.

(** ** The JavaScript values the component reads *)

Module Js.

(** The primitive values a record field can hold.  Objects, symbols and
    big integers do not occur in the fields read here. *)
Inductive Value : Type :=
| Undefined
| Null
| Boolean (b : bool)
| Num (x : float)
| Str (s : string).

(** [ToBoolean] on a number: [+0], [-0] and [NaN] are falsy. *)
Definition truthyNumber (x : float) : bool :=
  negb (PrimFloat.eqb x 0 || PrimFloat.is_nan x).

(** [ToBoolean]. *)
Definition ToBoolean (v : Value) : bool :=
  match v with
  | Undefined | Null => false
  | Boolean b => b
  | Num x => truthyNumber x
  | Str s => negb (String.eqb s "")
  end.

(** [a || b]: the left operand when it is truthy, the right one otherwise. *)
Definition or (a b : Value) : Value :=
  if ToBoolean a then a else b.

(** [x || d] where [x] is known to be a number. *)
Definition orNumber (x d : float) : float :=
  if truthyNumber x then x else d.

(** [a == null]: loose equality with [null] holds of [null] and [undefined]
    only. *)
Definition isNullish (v : Value) : bool :=
  match v with
  | Undefined | Null => true
  | _ => false
  end.

(** [SameValueZero]: equality of numbers where [NaN] equals itself and the
    two zeros are equal. *)
Definition SameValueZero (x y : float) : bool :=
  PrimFloat.eqb x y || (PrimFloat.is_nan x && PrimFloat.is_nan y).

(** The two zeros, told apart by their sign bit. *)
Definition isPositiveZero (x : float) : bool :=
  match Prim2SF x with
  | S754_zero false => true
  | _ => false
  end.

Definition isNegativeZero (x : float) : bool :=
  match Prim2SF x with
  | S754_zero true => true
  | _ => false
  end.

(** One step of [Math.max], [highest] being the largest number so far: a
    [NaN] argument makes the result [NaN]; a [+0] replaces a [-0]; a number
    above [highest] replaces it. *)
Definition max2 (highest x : float) : float :=
  if PrimFloat.is_nan highest || PrimFloat.is_nan x then nan
  else if isPositiveZero x && isNegativeZero highest then 0%float
  else if PrimFloat.ltb highest x then x
  else highest.

(** [Math.max(...xs)], which starts from [-Infinity]. *)
Definition Math_max (xs : list float) : float :=
  fold_left max2 xs neg_infinity.

(** The name under which a number indexes an object: [acc[idx]] uses the
    string [ToString(idx)].  That string is ["NaN"] for [NaN], ["0"] for both
    zeros, ["Infinity"] or ["-Infinity"], and otherwise the shortest decimal
    that reads back as the same number, so two numbers give the same name
    exactly when they have the same sign, mantissa and exponent.  A name is
    kept as that canonical content. *)
Inductive PropertyKey : Type :=
| KeyNaN
| KeyZero
| KeyInfinity (negative : bool)
| KeyFinite (negative : bool) (mantissa : positive) (exponent : Z).

(** The name of a number given by sign, mantissa and exponent. *)
Definition keyOfSpec (x : spec_float) : PropertyKey :=
  match x with
  | S754_nan => KeyNaN
  | S754_zero _ => KeyZero
  | S754_infinity s => KeyInfinity s
  | S754_finite s m e => KeyFinite s m e
  end.

Definition ToPropertyKey (x : float) : PropertyKey :=
  keyOfSpec (Prim2SF x).

#[global] Instance PropertyKey_eq_dec : EqDecision PropertyKey.
Proof. solve_decision. Defined.

Definition PropertyKey_encode (k : PropertyKey) : (unit + unit) + (bool + bool * positive * Z) :=
  match k with
  | KeyNaN => inl (inl tt)
  | KeyZero => inl (inr tt)
  | KeyInfinity s => inr (inl s)
  | KeyFinite s m e => inr (inr (s, m, e))
  end.

Definition PropertyKey_decode (c : (unit + unit) + (bool + bool * positive * Z)) : PropertyKey :=
  match c with
  | inl (inl _) => KeyNaN
  | inl (inr _) => KeyZero
  | inr (inl s) => KeyInfinity s
  | inr (inr (s, m, e)) => KeyFinite s m e
  end.

#[global] Instance PropertyKey_countable : Countable PropertyKey.
Proof. by apply (inj_countable' PropertyKey_encode PropertyKey_decode); intros []. Defined.

Section Conversions.

(** The runtime's [StringToNumber], which reads a numeric literal out of a
    string.  It is left to the runtime: nothing below depends on how a
    non-empty string is read. *)
Variable StringToNumber : string -> float.

(** [Number(v)], that is [ToNumber]. *)
Definition Number (v : Value) : float :=
  match v with
  | Undefined => nan
  | Null => 0
  | Boolean true => 1
  | Boolean false => 0
  | Num x => x
  | Str s => StringToNumber s
  end.

End Conversions.

End Js.

(** ** The records the component receives *)

(** [report.details]: the fields whose fallback is a plain [||].  A field the
    report does not carry reads as [undefined]. *)
Record Details : Type := {
  vocCold : Js.Value;
  vmpHot : Js.Value;
  vmaxInverter : Js.Value;
  vminMppt : Js.Value
}.

(** [CompatibilityReport]; the component receives [report], which is a
    report or [null]. *)
Record CompatibilityReport : Type := {
  details : option Details
}.

(** [report?.details?.field]. *)
Definition reportField (field : Details -> Js.Value) (report : option CompatibilityReport) : Js.Value :=
  match report with
  | None => Js.Undefined
  | Some r =>
      match details r with
      | None => Js.Undefined
      | Some d => field d
      end
  end.

(** One entry of [project.inverterConfig.configuredStrings]. *)
Record ConfiguredString : Type := {
  mpptIndex : Js.Value;
  panelCount : Js.Value
}.

(** [project.inverterConfig], as far as the computations read it. *)
Record InverterConfig : Type := {
  phase : Js.Value;
  configuredStrings : option (list ConfiguredString)
}.

(** One branch of a [MicroBranchesReport]. *)
Record MicroBranch : Type := {
  branchId : string;
  name : string;
  dropPercent : float
}.

Record MicroBranchesReport : Type := {
  branches : option (list MicroBranch)
}.

(** A configuration whose configured strings are [l]. *)
Definition withStrings (config : InverterConfig) (l : list ConfiguredString) : InverterConfig :=
  {| phase := phase config; configuredStrings := Some l |}.

(** ** The value fallbacks of the component (lines 54 to 64) *)

(** [project.inverterConfig.phase === 'Tri']. *)
Definition isThreePhase (config : InverterConfig) : bool :=
  match phase config with
  | Js.Str s => String.eqb s "Tri"
  | _ => false
  end.

(** [report?.details?.vocCold || 0]. *)
Definition vocColdString (report : option CompatibilityReport) : Js.Value :=
  Js.or (reportField vocCold report) (Js.Num 0).

(** [report?.details?.vmpHot || 0]. *)
Definition vmpHotString (report : option CompatibilityReport) : Js.Value :=
  Js.or (reportField vmpHot report) (Js.Num 0).

(** [report?.details?.vmaxInverter || (isThreePhase ? 1000 : 600)]. *)
Definition invVmaxLimit (report : option CompatibilityReport) (isThreePhase : bool) : Js.Value :=
  Js.or (reportField vmaxInverter report) (Js.Num (if isThreePhase then 1000 else 600)).

(** [report?.details?.vminMppt || 80]. *)
Definition invVmpMin (report : option CompatibilityReport) : Js.Value :=
  Js.or (reportField vminMppt report) (Js.Num 80).

(** ** Cumulated production voltage drop (lines 79 to 81) *)

(** [microBranchesReport!.branches], read where [hasMicroBranches] holds. *)
Definition branchList (microBranchesReport : option MicroBranchesReport) : list MicroBranch :=
  match microBranchesReport with
  | Some r => default [] (branches r)
  | None => []
  end.

(** [!!(microBranchesReport && microBranchesReport.branches &&
    microBranchesReport.branches.length > 0)]. *)
Definition hasMicroBranches (microBranchesReport : option MicroBranchesReport) : bool :=
  match microBranchesReport with
  | Some r =>
      match branches r with
      | Some bs => Nat.ltb 0 (length bs)
      | None => false
      end
  | None => false
  end.

(** [hasMicroBranches ? Math.max(...branches.map(b => b.dropPercent || 0)) : 0]. *)
Definition worstBranchDrop (microBranchesReport : option MicroBranchesReport) : float :=
  if hasMicroBranches microBranchesReport
  then Js.Math_max (map (fun b => Js.orNumber (dropPercent b) 0) (branchList microBranchesReport))
  else 0%float.

(** [hasMicroBranches ? (worstBranchDrop + (voltageDrop || 0)) : (voltageDrop || 0)]. *)
Definition totalProductionDrop (microBranchesReport : option MicroBranchesReport) (voltageDrop : float) : float :=
  if hasMicroBranches microBranchesReport
  then PrimFloat.add (worstBranchDrop microBranchesReport) (Js.orNumber voltageDrop 0)
  else Js.orNumber voltageDrop 0.

(** ** Parallel strings per MPPT and the gPV fuse rule (lines 69 to 77) *)

(** [count || 0] on a string count. *)
Definition orZero (count : nat) : nat :=
  if Nat.eqb count 0 then 0 else count.

(** [Object.values(counts)].  The runtime lists integer names first; the
    order does not reach the result, a maximum. *)
Definition Object_values (counts : gmap Js.PropertyKey nat) : list nat :=
  (map_to_list counts).*2.

(** [Object.values(counts).reduce((m, v) => Math.max(m, Number(v) || 0), 0)]. *)
Definition maxOfCounts (counts : gmap Js.PropertyKey nat) : nat :=
  foldl (fun m v => Nat.max m (orZero v)) 0 (Object_values counts).

Section ParallelStrings.

Variable StringToNumber : string -> float.

(** [Number(s.mpptIndex || 1)], the index a string is counted on. *)
Definition mpptIdx (s : ConfiguredString) : float :=
  Js.Number StringToNumber (Js.or (mpptIndex s) (Js.Num 1)).

(** The reducer: [acc[idx] = (acc[idx] || 0) + 1]. *)
Definition countString (acc : gmap Js.PropertyKey nat) (s : ConfiguredString) : gmap Js.PropertyKey nat :=
  let idx := Js.ToPropertyKey (mpptIdx s) in
  <[idx := orZero (default 0 (acc !! idx)) + 1]> acc.

(** [configuredStrings.reduce(..., {})], with
    [configuredStrings = project.inverterConfig.configuredStrings || []]. *)
Definition mpptParallelCounts (config : InverterConfig) : gmap Js.PropertyKey nat :=
  foldl countString ∅ (default [] (configuredStrings config)).

Definition maxParallelStringsOnAnyMppt (config : InverterConfig) : nat :=
  maxOfCounts (mpptParallelCounts config).

(** [maxParallelStringsOnAnyMppt > 2]: gPV fuses are required only above two
    strings in parallel on one MPPT. *)
Definition gpvRequired (config : InverterConfig) : bool :=
  Nat.ltb 2 (maxParallelStringsOnAnyMppt config).

(** The strings of a list that are counted on the index named [k], for
    stating what the counts hold. *)
Definition stringsOn (k : Js.PropertyKey) (l : list ConfiguredString) : nat :=
  length (filter (fun s => Js.ToPropertyKey (mpptIdx s) = k) l).

End ParallelStrings.

Section SpecGrouping.

Variable StringToNumber : string -> float.

(** The MPPT index the spec assigns to a configured string, written from its
    words and not from the reducer: the string's own [mpptIndex], and index 1
    when the [mpptIndex] is unknown.  An [mpptIndex] that names no index
    (absent, [null], 0, [NaN], the empty string, a boolean) is unknown; one
    given as text is read as the number it spells. *)
Definition specMpptIndex (s : ConfiguredString) : float :=
  match mpptIndex s with
  | Js.Num x => if Js.truthyNumber x then x else 1%float
  | Js.Str text => if String.eqb text "" then 1%float else StringToNumber text
  | Js.Boolean _ | Js.Undefined | Js.Null => 1%float
  end.

(** The configured strings of a list that the spec assigns to the index
    [idx]: the strings are grouped by index and counted per index. *)
Definition stringsAssignedTo (idx : float) (l : list ConfiguredString) : nat :=
  length (filter (fun s => Js.SameValueZero (specMpptIndex s) idx = true) l).

End SpecGrouping.

(** [worst] is a maximum of the numbers [xs]: one of them, and at least each
    of them. *)
Definition isMaximumOf (worst : float) (xs : list float) : Prop :=
  (exists x, x ∈ xs /\ Js.SameValueZero x worst = true) /\
  (forall x, x ∈ xs -> PrimFloat.leb x worst = true).

(** An object holds a count only under the names that were counted. *)
Definition someIfPositive (n : nat) : option nat :=
  if Nat.eqb n 0 then None else Some n.

(** ** The subscription note (lines 85 to 89 and 247 to 256) *)

(** Modelled from the spec: the phase of an installation. *)
Inductive Phase : Type :=
| Mono
| Tri.

(** Modelled from the spec: the record [getSubscriptionStatus] returns, of
    which the note reads [subscribedKva] and [isOk]; [null] reads as
    [None]. *)
Record SubscriptionStatus : Type := {
  recommendedKva : option float;
  subscribedKva : option float;
  isOk : bool;
  statusPhase : Phase
}.

(** Modelled from the spec: [subscribedKva >= recommendedKva], where a
    [null] [recommendedKva] compares as [0]. *)
Definition atLeastRecommended (subscribed : float) (recommended : option float) : bool :=
  PrimFloat.leb (default 0%float recommended) subscribed.

Section Subscription.

(** The tier lookup and the reading of the AGCP rating are the service's
    own; the spec fixes neither the headroom factor nor the conversion. *)
Variable recommendedTier : Phase -> float -> option float.
Variable subscribedFromAgcp : Js.Value -> option float.

(** Modelled from the spec: [getSubscriptionStatus] of
    [services/subscriptionService], which is not among the sources.  The
    spec gives [isOk = subscribedKva != null && subscribedKva >=
    recommendedKva]. *)
Definition getSubscriptionStatus (phase : Phase) (projectPowerKwc : float) (agcpA : Js.Value) : SubscriptionStatus :=
  let recommended := recommendedTier phase projectPowerKwc in
  let subscribed := subscribedFromAgcp agcpA in
  {| recommendedKva := recommended;
     subscribedKva := subscribed;
     isOk := match subscribed with
             | Some kva => atLeastRecommended kva recommended
             | None => false
             end;
     statusPhase := phase |}.

End Subscription.

(** What a [<span>] of the note holds: literal text and interpolated
    numbers. *)
Inductive Child : Type :=
| Text (s : string)
| Interpolated (x : float).

Record Span : Type := {
  className : string;
  children : list Child
}.

(** The second line of the note: [subscribedKva == null] is tested first,
    [isOk] only when a subscribed power is known. *)
Definition subscriptionNote (subscriptionStatus : SubscriptionStatus) : Span :=
  match subscribedKva subscriptionStatus with
  | None =>
      {| className := "font-bold";
         children := [Text "Puissance souscrite non renseignée (AGCP). À vérifier auprès du fournisseur/gestionnaire de réseau."] |}
  | Some kva =>
      if isOk subscriptionStatus
      then {| className := "font-bold text-green-700";
              children := [Text "Abonnement renseigné : "; Interpolated kva; Text " kVA — compatible."] |}
      else {| className := "font-bold text-red-700";
              children := [Text "Abonnement renseigné : "; Interpolated kva; Text " kVA — à faire évoluer."] |}
  end.

(** ** Recommended margins *)

Local Open Scope Z_scope.

(** Modelled from the spec: the enumeration [WindZone] of [../types], five
    zones ordered by severity. *)
Inductive WindZone : Type :=
| ZONE_1
| ZONE_2
| ZONE_3
| ZONE_4
| ZONE_5.

(** Modelled from the spec: the enumeration [RoofType] of [../types].  The
    four members the function names, and [OTHER_ROOF] for any further member,
    which no [case] of the function matches. *)
Inductive RoofType : Type :=
| TUILE_MECANIQUE
| TUILE_PLATE
| TUILE_CANAL
| FIBROCIMENT
| OTHER_ROOF.

(** Millimetres. *)
Record Margins : Type := {
  top : Z;
  bottom : Z;
  left : Z;
  right : Z
}.

(** The function assigns its locals in sequence: [baseMargin] starts at 300
    and is set by the first [switch]; [sideMargin] and [topBottomMargin]
    start from it and the second [switch] adds to [sideMargin] only. *)
Definition getRecommendedMargins (roofType : RoofType) (windZone : WindZone) : Margins :=
  let baseMargin := 300 in
  let baseMargin :=
    match windZone with
    | ZONE_1 | ZONE_2 => 300
    | ZONE_3 => 400
    | ZONE_4 => 500
    | ZONE_5 => 600
    end in
  let sideMargin := baseMargin in
  let topBottomMargin := baseMargin in
  let sideMargin :=
    match roofType with
    | TUILE_MECANIQUE | TUILE_PLATE => sideMargin
    | TUILE_CANAL => sideMargin + 50
    | FIBROCIMENT => sideMargin + 100
    | OTHER_ROOF => sideMargin
    end in
  {| top := topBottomMargin;
     bottom := topBottomMargin;
     left := sideMargin;
     right := sideMargin |}.

(** The severity of a zone, its number, for comparing zones. *)
Definition zoneSeverity (windZone : WindZone) : Z :=
  match windZone with
  | ZONE_1 => 1
  | ZONE_2 => 2
  | ZONE_3 => 3
  | ZONE_4 => 4
  | ZONE_5 => 5
  end.

(** The table of the spec, to compare the function with: the base margin of
    a zone and the side adjustment of a roof type. *)
Definition specBaseMargin (windZone : WindZone) : Z :=
  match windZone with
  | ZONE_1 => 300
  | ZONE_2 => 300
  | ZONE_3 => 400
  | ZONE_4 => 500
  | ZONE_5 => 600
  end.

Definition specSideAdjustment (roofType : RoofType) : Z :=
  match roofType with
  | TUILE_CANAL => 50
  | FIBROCIMENT => 100
  | _ => 0
  end.

Local Close Scope Z_scope.

(** The place of a number other than [NaN] in the order of numbers: class
    (minus infinity, negative, zero, positive, plus infinity), then exponent
    and mantissa, both negated below zero.  The comparisons of binary64
    numbers compare these places lexicographically. *)
Definition rankOfSpec (x : spec_float) : Z * Z * Z :=
  match x with
  | S754_nan => (0, 0, 0)%Z
  | S754_zero _ => (0, 0, 0)%Z
  | S754_infinity false => (2, 0, 0)%Z
  | S754_infinity true => (-2, 0, 0)%Z
  | S754_finite false m e => (1, e, Z.pos m)%Z
  | S754_finite true m e => (-1, - e, Z.neg m)%Z
  end.

Definition rankLe (a b : Z * Z * Z) : Prop :=
  (a.1.1 < b.1.1 \/ (a.1.1 = b.1.1 /\ (a.1.2 < b.1.2 \/ (a.1.2 = b.1.2 /\ a.2 <= b.2))))%Z.

(** The total of the counts an accumulator holds, for stating that every
    string is counted. *)
Definition sumOfCounts (counts : gmap Js.PropertyKey nat) : nat :=
  map_fold (fun _ count total => count + total) 0 counts.

(** ** The material list (lines 28 to 35 and 136 to 166) *)

Definition ITEMS_PER_PAGE : nat := 14.

(** A [Material], as far as the rows read it. *)
Record Material : Type := {
  description : string
}.

(** What [groupMaterialsByCategory] returns: groups with their items and,
    optionally, sub-sections. *)
Module SubSection.

Record t : Type := {
  title : string;
  items : list Material
}.

End SubSection.

Module Group.

Record t : Type := {
  category : string;
  items : list Material;
  subSections : option (list SubSection.t)
}.

End Group.

(** [PrintableRow], a union tagged by [type]. *)
Inductive PrintableRow : Type :=
| Header (title : string)
| Subheader (title : string)
| Item (material : Material)
| Warning (text : string).

(** [s.includes(needle)]: [needle] occurs in [s]. *)
Fixpoint includes (s needle : string) : bool :=
  String.prefix needle s ||
  match s with
  | EmptyString => false
  | String.String _ rest => includes rest needle
  end.

Section PrintableRows.

(** The runtime's [StringToNumber] and [String.prototype.toLowerCase]. *)
Variable StringToNumber : string -> float.
Variable toLowerCase : string -> string.

(** [!agcpValue || agcpValue <= 0]; the comparison converts [agcpValue] to a
    number, and is false on [NaN]. *)
Definition agcpNotGiven (agcpValue : Js.Value) : bool :=
  negb (Js.ToBoolean agcpValue) || PrimFloat.leb (Js.Number StringToNumber agcpValue) 0.

(** [item.description.toLowerCase().includes('coffret ac')]. *)
Definition isCoffretAc (item : Material) : bool :=
  includes (toLowerCase (description item)) "coffret ac".

(** [addItemWithWarning], which pushes onto [rows]. *)
Definition addItemWithWarning (agcpValue : Js.Value) (rows : list PrintableRow) (item : Material) : list PrintableRow :=
  let rows := (rows ++ [Item item])%list in
  if isCoffretAc item && agcpNotGiven agcpValue
  then (rows ++ [Warning "Disjoncteur non livré dans les coffrets AC à calibrer et a ajouter en fonction de l'AGCP client"])%list
  else rows.

(** The body of [g.subSections.forEach]. *)
Definition addSubSection (agcpValue : Js.Value) (rows : list PrintableRow) (sub : SubSection.t) : list PrintableRow :=
  foldl (addItemWithWarning agcpValue) (rows ++ [Subheader (SubSection.title sub)])%list (SubSection.items sub).

(** The body of [grouped.forEach]. *)
Definition addGroup (agcpValue : Js.Value) (rows : list PrintableRow) (g : Group.t) : list PrintableRow :=
  let rows := (rows ++ [Header (Group.category g)])%list in
  let rows := foldl (addItemWithWarning agcpValue) rows (Group.items g) in
  match Group.subSections g with
  | Some subSections => foldl (addSubSection agcpValue) rows subSections
  | None => rows
  end.

(** [printableRows], from [grouped = groupMaterialsByCategory(materials)]. *)
Definition printableRows (agcpValue : Js.Value) (grouped : list Group.t) : list PrintableRow :=
  foldl (addGroup agcpValue) [] grouped.

End PrintableRows.

(** The material of a row, and the materials of a group in the order the
    group lists them, for stating what the rows hold. *)
Definition rowMaterial (row : PrintableRow) : option Material :=
  match row with
  | Item material => Some material
  | _ => None
  end.

Definition groupMaterials (g : Group.t) : list Material :=
  (Group.items g ++ flat_map SubSection.items (default [] (Group.subSections g)))%list.

(** [rows.slice(start, finish)] for [start <= finish]. *)
Definition slice {A : Type} (rows : list A) (start finish : nat) : list A :=
  take (finish - start) (drop start rows).

Definition inspect {A : Type} (a : A) : {b : A | a = b} :=
  exist _ a eq_refl.

(** The loop [for (let i = 0; i < printableRows.length; i += ITEMS_PER_PAGE)],
    from the index [i] with the chunks pushed so far.  It ends because [i]
    grows at every round. *)
Equations? chunkLoop {A : Type} (rows : list A) (i : nat) (chunks : list (list A)) : list (list A)
  by wf (length rows - i) lt :=
chunkLoop rows i chunks with inspect (Nat.ltb i (length rows)) := {
  | exist _ true _ =>
      chunkLoop rows (i + ITEMS_PER_PAGE) (chunks ++ [slice rows i (i + ITEMS_PER_PAGE)])
  | exist _ false _ => chunks }.
Proof. apply Nat.ltb_lt in e. unfold ITEMS_PER_PAGE. lia. Qed.

(** [materialChunks]: [chunks.length > 0 ? chunks : [[]]]. *)
Definition materialChunks {A : Type} (printableRows : list A) : list (list A) :=
  let chunks := chunkLoop printableRows 0 [] in
  if Nat.ltb 0 (length chunks) then chunks else [[]].

(** ** The inverter documents of [projectDocs] (lines 93 to 134) *)

(** A catalogue [Component], as far as [projectDocs] reads it; a URL the
    catalogue does not give reads as [None]. *)
Module Component.

Record t : Type := {
  id : string;
  description : string;
  datasheetUrl : option string;
  manualUrl : option string;
  videoUrl : option string
}.

End Component.

(** [projectDocs.inverter]. *)
Module InverterDocs.

Record t : Type := {
  brand : string;
  model : string;
  datasheet : string;
  manual : string;
  video : option string;
  genericUrl : string;
  foxCommissioningUrl : option string
}.

End InverterDocs.

(** [url || fallback] on a URL that may be missing: an empty string is
    falsy. *)
Definition orUrl (url : option string) (fallback : string) : string :=
  match url with
  | Some s => if String.eqb s "" then fallback else s
  | None => fallback
  end.

Section ProjectDocs.

(** The members of the enumeration [InverterBrand], strings declared in
    [../types]. *)
Variable FOXESS ENPHASE APSYSTEMS : string.

(** [genericInvUrl]: a search on the brand, replaced by the download page
    of a known brand. *)
Definition genericInvUrl (brand : string) : string :=
  let genericInvUrl := "https://www.google.com/search?q=" ++ brand in
  if String.eqb brand FOXESS then "https://fr.fox-ess.com/download/"
  else if String.eqb brand ENPHASE
  then "https://support.enphase.com/s/article/video-iq-microinverter-installationsguide"
  else if String.eqb brand APSYSTEMS then "https://emea.apsystems.com/document-library/"
  else genericInvUrl.

(** [Object.values(allInverters).find((c) => c.id === invModelId)]. *)
Definition selectedInv (allInverters : list Component.t) (invModelId : string) : option Component.t :=
  List.find (fun c => String.eqb (Component.id c) invModelId) allInverters.

(** The [inverter] entry of [projectDocs], from [project.inverterConfig.brand]
    and [project.inverterConfig.model]. *)
Definition inverterDocs (allInverters : list Component.t) (brand model : string) : InverterDocs.t :=
  let selectedInv := selectedInv allInverters model in
  let genericInvUrl := genericInvUrl brand in
  {| InverterDocs.brand := brand;
     InverterDocs.model := match selectedInv with
                           | Some c => Component.description c
                           | None => model
                           end;
     InverterDocs.datasheet := orUrl (selectedInv ≫= Component.datasheetUrl) genericInvUrl;
     InverterDocs.manual := orUrl (selectedInv ≫= Component.manualUrl) genericInvUrl;
     InverterDocs.video := selectedInv ≫= Component.videoUrl;
     InverterDocs.genericUrl := genericInvUrl;
     InverterDocs.foxCommissioningUrl :=
       if String.eqb brand FOXESS then Some "https://pis.powr.group/install-foxess" else None |}.

End ProjectDocs.

(** ** The pages and their numbers (lines 167 to 171 and the footers) *)

Record ExportOptions : Type := {
  includeDatasheets : bool;
  includeGuides : bool;
  includeRegulations : bool
}.

Local Open Scope Z_scope.

(** [totalPages], with [materialPages = materialChunks.length],
    [showDoc = exportOptions.includeGuides] and
    [showRegul = exportOptions.includeRegulations]. *)
Definition totalPages {F R : Type} (fields : list F) (exportOptions : ExportOptions)
    (materialChunks : list (list R)) : Z :=
  let materialPages := Z.of_nat (length materialChunks) in
  let showDoc := includeGuides exportOptions in
  let showRegul := includeRegulations exportOptions in
  1 + (Z.of_nat (length fields) * 2) + 2 + (if includeDatasheets exportOptions then 2 else 1)
  + materialPages + (if showDoc then 2 else 0) + (if showRegul then 1 else 0).

(** The pages of the document, in the order they are rendered. *)
Inductive PageKind : Type :=
| Cover
| RoofOverview
| RoofLayout
| DcAudit
| AcAudit
| Schematic
| MaterialList
| DocStructure
| DocEnergy
| Regulation.

(** A page and the [page] its [CommonFooter] receives; the cover has no
    footer. *)
Abbreviation Page := (PageKind * option Z)%type.

(** The [pdf-page] elements the component returns. *)
Definition pdfPages {F R : Type} (fields : list F) (exportOptions : ExportOptions)
    (materialChunks : list (list R)) : list Page :=
  let totalPages := totalPages fields exportOptions materialChunks in
  let materialPages := Z.of_nat (length materialChunks) in
  let showDoc := includeGuides exportOptions in
  let showRegul := includeRegulations exportOptions in
  let fieldCount := Z.of_nat (length fields) in
  [(Cover, None)]
  ++ concat (imap (fun index _ =>
       [(RoofOverview, Some (1 + (Z.of_nat index * 2) + 1));
        (RoofLayout, Some (1 + (Z.of_nat index * 2) + 2))]) fields)
  ++ (if includeDatasheets exportOptions
      then [(DcAudit, Some (1 + (fieldCount * 2) + 1))]
      else [])
  ++ [(AcAudit, Some (1 + (fieldCount * 2) + (if includeDatasheets exportOptions then 2 else 1)));
      (Schematic, Some (1 + (fieldCount * 2) + (if includeDatasheets exportOptions then 2 else 1) + 1))]
  ++ imap (fun pageIndex _ =>
       (MaterialList,
        Some (totalPages - materialPages + Z.of_nat pageIndex
              - (if showDoc then 2 else 0) - (if showRegul then 1 else 0)))) materialChunks
  ++ (if showDoc
      then [(DocStructure, Some (totalPages - (if showDoc then 1 else 0) - (if showRegul then 1 else 0)));
            (DocEnergy, Some (totalPages - (if showRegul then 1 else 0)))]
      else [])
  ++ (if showRegul then [(Regulation, Some totalPages)] else []).

(** The pages that follow the material list. *)
Definition isAppendix (kind : PageKind) : bool :=
  match kind with
  | DocStructure | DocEnergy | Regulation => true
  | _ => false
  end.

Local Close Scope Z_scope.

(** ** Sample inputs *)

(** A reading of strings for the examples: the empty string reads as 0, as
    the runtime reads it; the examples hold no other string. *)
Definition sampleStringToNumber (s : string) : float :=
  if String.eqb s "" then 0%float else nan.

Definition sampleConfig : InverterConfig :=
  {| phase := Js.Str "Mono"; configuredStrings := None |}.

Definition sampleString (index : Js.Value) : ConfiguredString :=
  {| mpptIndex := index; panelCount := Js.Num 10 |}.

Definition sampleBranches : option MicroBranchesReport :=
  Some {| branches := Some [ {| branchId := "b1"; name := "Branche 1"; dropPercent := 0.5 |};
                             {| branchId := "b2"; name := "Branche 2"; dropPercent := 0.75 |};
                             {| branchId := "b3"; name := "Branche 3"; dropPercent := 0.25 |} ] |}.

Definition sampleOneBranch : option MicroBranchesReport :=
  Some {| branches := Some [ {| branchId := "b1"; name := "Branche 1"; dropPercent := 0.5 |} ] |}.

Definition sampleNanBranch : option MicroBranchesReport :=
  Some {| branches := Some [ {| branchId := "b1"; name := "Branche 1"; dropPercent := nan |} ] |}.

Definition sampleZeroReport : Details :=
  {| vocCold := Js.Num 0; vmpHot := Js.Num 0; vmaxInverter := Js.Num 0; vminMppt := Js.Num 0 |}.

(** A tier lookup and a reading of the AGCP rating for the examples. *)
Definition sampleTier (phase : Phase) (projectPowerKwc : float) : option float :=
  Some 6%float.

Definition sampleAgcp (agcpA : Js.Value) : option float :=
  match agcpA with
  | Js.Num a => Some a
  | _ => None
  end.

(** A lower-casing of strings for the examples: the letters A to Z, which
    is what the runtime does on the descriptions of the examples. *)
Definition sampleLowerChar (c : Ascii.ascii) : Ascii.ascii :=
  let n := Ascii.nat_of_ascii c in
  if (Nat.leb 65 n && Nat.leb n 90)%bool then Ascii.ascii_of_nat (n + 32) else c.

Fixpoint sampleToLowerCase (s : string) : string :=
  match s with
  | EmptyString => EmptyString
  | String.String c rest => String.String (sampleLowerChar c) (sampleToLowerCase rest)
  end.

Definition sampleGrouped : list Group.t :=
  [ {| Group.category := "Protection";
       Group.items := [ {| description := "Coffret AC 3kW mono" |};
                        {| description := "Cable solaire 6mm2" |} ];
       Group.subSections :=
         Some [ {| SubSection.title := "Accessoires";
                   SubSection.items := [ {| description := "Connecteur MC4" |} ] |} ] |} ].

Definition sampleCatalogue : list Component.t :=
  [ {| Component.id := "H1-3.0-E"; Component.description := "Onduleur hybride H1 3 kW";
       Component.datasheetUrl := Some "https://fr.fox-ess.com/h1/"; Component.manualUrl := None;
       Component.videoUrl := None |} ].

(** * Properties *)

(** ** Numbers up to the sign of zero *)

Lemma SFcompare_key (a a' b b' : spec_float) :
  Js.keyOfSpec a = Js.keyOfSpec a' ->
  Js.keyOfSpec b = Js.keyOfSpec b' ->
  SFcompare a b = SFcompare a' b'.
Proof.
  destruct a, a', b, b'; cbn [Js.keyOfSpec]; intros Ha Hb;
    try discriminate; simplify_eq; reflexivity.
Qed.

Lemma SFadd_key (a a' b b' : spec_float) :
  Js.keyOfSpec a = Js.keyOfSpec a' ->
  Js.keyOfSpec b = Js.keyOfSpec b' ->
  Js.keyOfSpec (SF64add a b) = Js.keyOfSpec (SF64add a' b').
Proof.
  unfold SF64add, SFadd.
  destruct a, a', b, b'; cbn [Js.keyOfSpec]; intros Ha Hb;
    try discriminate; simplify_eq; try reflexivity;
    repeat match goal with s : bool |- _ => destruct s end; reflexivity.
Qed.

Lemma SFcompare_finite_Eq (s s' : bool) (m m' : positive) (e e' : Z) :
  SFcompare (S754_finite s m e) (S754_finite s' m' e') = Some Eq <->
  s = s' /\ m = m' /\ e = e'.
Proof.
  cbn [SFcompare]. rewrite Pos.compare_cont_spec. cbn [Pos.switch_Eq].
  destruct (Z.compare_spec e e') as [He|He|He],
           (Pos.compare_spec m m') as [Hm|Hm|Hm], s, s';
    cbn [CompOpp]; split; try discriminate; try (intros (? & ? & ?); lia);
    intros _; subst; auto.
Qed.

Lemma SFeqb_key (a b : spec_float) :
  SFeqb a b = true <-> Js.keyOfSpec a = Js.keyOfSpec b /\ a <> S754_nan.
Proof.
  unfold SFeqb. split.
  - destruct (SFcompare a b) as [[]|] eqn:Hc; try discriminate. intros _.
    destruct a as [sa|sa| |sa ma ea], b as [sb|sb| |sb mb eb];
      try apply SFcompare_finite_Eq in Hc as (-> & -> & ->);
      try destruct sa; try destruct sb;
      try discriminate Hc; cbn [Js.keyOfSpec]; split; try discriminate; reflexivity.
  - intros [Hk Hn].
    destruct a as [sa|sa| |sa ma ea], b as [sb|sb| |sb mb eb];
      cbn [Js.keyOfSpec] in Hk; try discriminate Hk; try congruence.
    + reflexivity.
    + injection Hk as ->. destruct sb; reflexivity.
    + injection Hk as -> -> ->.
      rewrite (proj2 (SFcompare_finite_Eq sb sb mb mb eb eb)); auto.
Qed.

Lemma is_nan_key (x : float) :
  PrimFloat.is_nan x = true <-> Js.ToPropertyKey x = Js.KeyNaN.
Proof.
  unfold PrimFloat.is_nan, Js.ToPropertyKey. rewrite FloatAxioms.eqb_spec, negb_true_iff.
  destruct (SFeqb (Prim2SF x) (Prim2SF x)) eqn:He.
  - apply SFeqb_key in He as [_ Hn].
    split; [discriminate | destruct (Prim2SF x); try discriminate; congruence].
  - split; [intros _ | reflexivity].
    destruct (Prim2SF x) as [s|s| |s m e]; try reflexivity.
    + assert (SFeqb (S754_zero s) (S754_zero s) = true) as Ht
        by (apply SFeqb_key; split; [reflexivity | discriminate]).
      congruence.
    + assert (SFeqb (S754_infinity s) (S754_infinity s) = true) as Ht
        by (apply SFeqb_key; split; [reflexivity | discriminate]).
      congruence.
    + assert (SFeqb (S754_finite s m e) (S754_finite s m e) = true) as Ht
        by (apply SFeqb_key; split; [reflexivity | discriminate]).
      congruence.
Qed.

Lemma is_nan_same_key (x y : float) :
  Js.ToPropertyKey x = Js.ToPropertyKey y ->
  PrimFloat.is_nan x = PrimFloat.is_nan y.
Proof.
  intros Hk. apply eq_true_iff_eq. rewrite !is_nan_key, Hk. reflexivity.
Qed.

Lemma SameValueZero_key (x y : float) :
  Js.SameValueZero x y = true <-> Js.ToPropertyKey x = Js.ToPropertyKey y.
Proof.
  unfold Js.SameValueZero. rewrite orb_true_iff, andb_true_iff, !is_nan_key.
  rewrite FloatAxioms.eqb_spec, SFeqb_key. fold (Js.ToPropertyKey x) (Js.ToPropertyKey y).
  split.
  - intros [[Hk _] | [Hx Hy]]; congruence.
  - intros Hk. destruct (Js.ToPropertyKey x) eqn:Hx; auto; left; split; trivial;
      intros Hn; unfold Js.ToPropertyKey in Hx; rewrite Hn in Hx; discriminate.
Qed.

Lemma eqb_zero_key (x : float) :
  PrimFloat.eqb x 0 = true <-> Js.ToPropertyKey x = Js.KeyZero.
Proof.
  rewrite FloatAxioms.eqb_spec, SFeqb_key. fold (Js.ToPropertyKey x).
  change (Js.keyOfSpec (Prim2SF 0)) with Js.KeyZero. split; [tauto |].
  intros Hk. split; trivial. intros Hn. unfold Js.ToPropertyKey in Hk.
  rewrite Hn in Hk. discriminate.
Qed.

(** [x || 0] is [x] up to the sign of zero, unless [x] is [NaN]. *)
Lemma orNumber_key (x : float) :
  PrimFloat.is_nan x = false ->
  Js.ToPropertyKey (Js.orNumber x 0) = Js.ToPropertyKey x.
Proof.
  intros Hn. unfold Js.orNumber, Js.truthyNumber. rewrite Hn, orb_false_r.
  destruct (PrimFloat.eqb x 0) eqn:Hz; cbn [negb]; trivial.
  apply eqb_zero_key in Hz. rewrite Hz. reflexivity.
Qed.

Lemma add_key (x x' y y' : float) :
  Js.ToPropertyKey x = Js.ToPropertyKey x' ->
  Js.ToPropertyKey y = Js.ToPropertyKey y' ->
  Js.ToPropertyKey (PrimFloat.add x y) = Js.ToPropertyKey (PrimFloat.add x' y').
Proof.
  unfold Js.ToPropertyKey. rewrite !add_spec. apply SFadd_key.
Qed.

Lemma ltb_key (x x' y y' : float) :
  Js.ToPropertyKey x = Js.ToPropertyKey x' ->
  Js.ToPropertyKey y = Js.ToPropertyKey y' ->
  PrimFloat.ltb x y = PrimFloat.ltb x' y'.
Proof.
  unfold Js.ToPropertyKey. intros Hx Hy. rewrite !ltb_spec. unfold SFltb.
  rewrite (SFcompare_key _ _ _ _ Hx Hy). reflexivity.
Qed.

Lemma ltb_zero_zero (h x : float) :
  Js.ToPropertyKey h = Js.KeyZero ->
  Js.ToPropertyKey x = Js.KeyZero ->
  PrimFloat.ltb h x = false.
Proof.
  unfold Js.ToPropertyKey. intros Hh Hx. rewrite ltb_spec.
  destruct (Prim2SF h), (Prim2SF x); try discriminate. reflexivity.
Qed.

Lemma isPositiveZero_key (x : float) :
  Js.isPositiveZero x = true -> Js.ToPropertyKey x = Js.KeyZero.
Proof.
  unfold Js.isPositiveZero, Js.ToPropertyKey.
  destruct (Prim2SF x) as [[]| | |]; try discriminate. reflexivity.
Qed.

Lemma isNegativeZero_key (x : float) :
  Js.isNegativeZero x = true -> Js.ToPropertyKey x = Js.KeyZero.
Proof.
  unfold Js.isNegativeZero, Js.ToPropertyKey.
  destruct (Prim2SF x) as [[]| | |]; try discriminate. reflexivity.
Qed.

(** A step of [Math.max] respects equality up to the sign of zero. *)
Lemma max2_key (h h' x x' : float) :
  Js.ToPropertyKey h = Js.ToPropertyKey h' ->
  Js.ToPropertyKey x = Js.ToPropertyKey x' ->
  Js.ToPropertyKey (Js.max2 h x) = Js.ToPropertyKey (Js.max2 h' x').
Proof.
  intros Hh Hx. unfold Js.max2.
  rewrite (is_nan_same_key _ _ Hh), (is_nan_same_key _ _ Hx), (ltb_key _ _ _ _ Hh Hx).
  destruct (PrimFloat.is_nan h' || PrimFloat.is_nan x'); trivial.
  destruct (Js.isPositiveZero x && Js.isNegativeZero h) eqn:Hz.
  - apply andb_true_iff in Hz as [Hzx%isPositiveZero_key Hzh%isNegativeZero_key].
    rewrite Hzx in Hx. rewrite Hzh in Hh.
    rewrite (ltb_zero_zero h' x') by congruence.
    destruct (Js.isPositiveZero x' && Js.isNegativeZero h'); [reflexivity |].
    rewrite <- Hh. reflexivity.
  - destruct (Js.isPositiveZero x' && Js.isNegativeZero h') eqn:Hz'.
    + apply andb_true_iff in Hz' as [Hzx%isPositiveZero_key Hzh%isNegativeZero_key].
      rewrite (ltb_zero_zero h' x') by assumption.
      rewrite Hh, Hzh. reflexivity.
    + destruct (PrimFloat.ltb h' x'); assumption.
Qed.

Lemma fold_max2_key {A : Type} (f g : A -> float) (l : list A) (h h' : float) :
  (forall b, b ∈ l -> Js.ToPropertyKey (f b) = Js.ToPropertyKey (g b)) ->
  Js.ToPropertyKey h = Js.ToPropertyKey h' ->
  Js.ToPropertyKey (fold_left Js.max2 (map f l) h) =
  Js.ToPropertyKey (fold_left Js.max2 (map g l) h').
Proof.
  revert h h'. induction l as [|b l IH]; intros h h' Hl Hh; cbn [map fold_left].
  - assumption.
  - apply IH.
    + intros b' Hb'. apply Hl. by right.
    + apply max2_key; [assumption | apply Hl; by left].
Qed.

(** ** The per-MPPT counts *)

Lemma orZero_id (n : nat) : orZero n = n.
Proof. unfold orZero. destruct (Nat.eqb_spec n 0); congruence. Qed.

Lemma foldl_max_lt (l : list nat) (a n : nat) :
  n < foldl (fun m v => Nat.max m (orZero v)) a l <-> n < a \/ exists v, v ∈ l /\ n < v.
Proof.
  revert a. induction l as [|v l IH]; intros a; cbn [foldl].
  - split; [auto | intros [H | (v & Hv & _)]; [assumption | inversion Hv]].
  - rewrite IH, orZero_id. split.
    + intros [H | (w & Hw & Hn)].
      * destruct (Nat.max_spec a v) as [[_ Hm] | [_ Hm]]; rewrite Hm in H.
        -- right. exists v. split; [by left | assumption].
        -- by left.
      * right. exists w. split; [by right | assumption].
    + intros [H | (w & Hw & Hn)].
      * left. lia.
      * apply elem_of_cons in Hw as [-> | Hw].
        -- left. lia.
        -- right. eauto.
Qed.

Lemma maxOfCounts_lt (counts : gmap Js.PropertyKey nat) (n : nat) :
  n < maxOfCounts counts <-> exists k v, counts !! k = Some v /\ n < v.
Proof.
  unfold maxOfCounts, Object_values. rewrite foldl_max_lt. split.
  - intros [H | (v & Hv & Hn)]; [lia |].
    apply list_elem_of_fmap in Hv as ([k v'] & -> & Hkv).
    apply elem_of_map_to_list in Hkv. eauto.
  - intros (k & v & Hkv & Hn). right. exists v. split; [| assumption].
    apply list_elem_of_fmap. exists (k, v). split; [reflexivity |].
    by apply elem_of_map_to_list.
Qed.

Section ParallelStringsFacts.

Variable StringToNumber : string -> float.

Abbreviation keyOf s := (Js.ToPropertyKey (mpptIdx StringToNumber s)).

Lemma stringsOn_cons (k : Js.PropertyKey) (s : ConfiguredString) (l : list ConfiguredString) :
  stringsOn StringToNumber k (s :: l) =
  (if decide (keyOf s = k) then 1 else 0) + stringsOn StringToNumber k l.
Proof.
  unfold stringsOn. rewrite filter_cons. destruct (decide (keyOf s = k)); reflexivity.
Qed.

Lemma stringsOn_app (k : Js.PropertyKey) (l1 l2 : list ConfiguredString) :
  stringsOn StringToNumber k (l1 ++ l2) =
  stringsOn StringToNumber k l1 + stringsOn StringToNumber k l2.
Proof.
  unfold stringsOn. rewrite filter_app, length_app. reflexivity.
Qed.

Lemma countString_lookup (acc : gmap Js.PropertyKey nat) (s : ConfiguredString)
    (c : Js.PropertyKey -> nat) (k : Js.PropertyKey) :
  (forall k', acc !! k' = someIfPositive (c k')) ->
  countString StringToNumber acc s !! k =
  someIfPositive (c k + (if decide (keyOf s = k) then 1 else 0)).
Proof.
  intros Hacc. unfold countString. cbn zeta. rewrite lookup_insert.
  destruct (decide (keyOf s = k)) as [<- | Hne].
  - rewrite orZero_id, Hacc. unfold someIfPositive.
    destruct (Nat.eqb_spec (c (keyOf s)) 0) as [-> | Hc]; cbn [default].
    + reflexivity.
    + destruct (Nat.eqb_spec (c (keyOf s) + 1) 0); [lia | reflexivity].
  - rewrite Hacc, Nat.add_0_r. reflexivity.
Qed.

Lemma foldl_countString_lookup (l : list ConfiguredString) (acc : gmap Js.PropertyKey nat)
    (c : Js.PropertyKey -> nat) :
  (forall k, acc !! k = someIfPositive (c k)) ->
  forall k, foldl (countString StringToNumber) acc l !! k =
            someIfPositive (c k + stringsOn StringToNumber k l).
Proof.
  revert acc c. induction l as [|s l IH]; intros acc c Hacc k; cbn [foldl].
  - unfold stringsOn. cbn. rewrite Nat.add_0_r. apply Hacc.
  - rewrite (IH _ (fun k' => c k' + (if decide (keyOf s = k') then 1 else 0))).
    + rewrite stringsOn_cons. f_equal. lia.
    + intros k'. by apply countString_lookup.
Qed.

(** What the accumulator holds at the end: under each name, the number of
    strings counted on it, and nothing under a name no string is counted on. *)
Lemma mpptParallelCounts_lookup (config : InverterConfig) (k : Js.PropertyKey) :
  mpptParallelCounts StringToNumber config !! k =
  someIfPositive (stringsOn StringToNumber k (default [] (configuredStrings config))).
Proof.
  unfold mpptParallelCounts.
  rewrite (foldl_countString_lookup _ ∅ (fun _ => 0)); [reflexivity |].
  intros k'. apply lookup_empty.
Qed.

Lemma someIfPositive_Some (n v : nat) :
  someIfPositive n = Some v <-> n = v /\ 0 < v.
Proof.
  unfold someIfPositive. destruct (Nat.eqb_spec n 0); split.
  - discriminate.
  - lia.
  - intros [= <-]. lia.
  - intros [-> _]. reflexivity.
Qed.

Lemma someIfPositive_succ (a b : nat) :
  someIfPositive (a + (1 + b)) = Some (S (default 0 (someIfPositive (a + b)))).
Proof.
  unfold someIfPositive.
  destruct (Nat.eqb_spec (a + (1 + b)) 0); [lia |].
  destruct (Nat.eqb_spec (a + b) 0) as [H0 | H0]; cbn; f_equal; lia.
Qed.

(** [gpvRequired] in terms of the names of the accumulator: it holds exactly
    when more than two strings are counted under one name. *)
Lemma gpvRequired_iff_some_mppt_above_two (config : InverterConfig) :
  gpvRequired StringToNumber config = true <->
  exists k : Js.PropertyKey,
    2 < stringsOn StringToNumber k (default [] (configuredStrings config)).
Proof.
  unfold gpvRequired, maxParallelStringsOnAnyMppt.
  rewrite Nat.ltb_lt, maxOfCounts_lt. split.
  - intros (k & v & Hkv & Hv). exists k.
    rewrite mpptParallelCounts_lookup in Hkv.
    apply someIfPositive_Some in Hkv as [-> _]. assumption.
  - intros (k & Hk). exists k. eexists. split; [| exact Hk].
    rewrite mpptParallelCounts_lookup. apply someIfPositive_Some. lia.
Qed.

(** The reducer counts a string on the index the spec assigns to it. *)
Lemma mpptIdx_specMpptIndex (s : ConfiguredString) :
  mpptIdx StringToNumber s = specMpptIndex StringToNumber s.
Proof.
  unfold mpptIdx, specMpptIndex, Js.or.
  destruct (mpptIndex s) as [| |[]|x|text]; cbn [Js.ToBoolean Js.Number]; try reflexivity.
  - destruct (Js.truthyNumber x); reflexivity.
  - destruct (String.eqb text ""); reflexivity.
Qed.

Lemma stringsAssignedTo_stringsOn (idx : float) (l : list ConfiguredString) :
  stringsAssignedTo StringToNumber idx l = stringsOn StringToNumber (Js.ToPropertyKey idx) l.
Proof.
  unfold stringsAssignedTo, stringsOn. f_equal. apply list_filter_iff. intros s.
  rewrite SameValueZero_key, mpptIdx_specMpptIndex. reflexivity.
Qed.

Lemma stringsOn_positive (k : Js.PropertyKey) (l : list ConfiguredString) :
  0 < stringsOn StringToNumber k l ->
  exists s, s ∈ l /\ Js.ToPropertyKey (mpptIdx StringToNumber s) = k.
Proof.
  unfold stringsOn. intros Hpos.
  destruct (filter (fun s => Js.ToPropertyKey (mpptIdx StringToNumber s) = k) l)
    as [|s rest] eqn:Hf; [cbn in Hpos; lia |].
  assert (s ∈ filter (fun s => Js.ToPropertyKey (mpptIdx StringToNumber s) = k) l) as Hs
    by (rewrite Hf; by left).
  apply list_elem_of_filter in Hs as [Hk Hs]. eauto.
Qed.

(** C2. For every configuration, [gpvRequired] is true exactly when some
    MPPT index has more than two of the configured strings assigned to it,
    the strings being grouped by their [mpptIndex] (index 1 when it is
    unknown) and counted per index; so three strings on MPPT 1 and one on
    MPPT 2 need fuses, and two and two do not. *)
Theorem gpvRequired_iff_some_index_above_two (config : InverterConfig) :
  (gpvRequired StringToNumber config = true <->
   exists idx : float,
     2 < stringsAssignedTo StringToNumber idx (default [] (configuredStrings config))) /\
  gpvRequired StringToNumber
    (withStrings config
       [ {| mpptIndex := Js.Num 1; panelCount := Js.Num 10 |};
         {| mpptIndex := Js.Num 1; panelCount := Js.Num 10 |};
         {| mpptIndex := Js.Num 1; panelCount := Js.Num 10 |};
         {| mpptIndex := Js.Num 2; panelCount := Js.Num 10 |} ]) = true /\
  gpvRequired StringToNumber
    (withStrings config
       [ {| mpptIndex := Js.Num 1; panelCount := Js.Num 10 |};
         {| mpptIndex := Js.Num 1; panelCount := Js.Num 10 |};
         {| mpptIndex := Js.Num 2; panelCount := Js.Num 10 |};
         {| mpptIndex := Js.Num 2; panelCount := Js.Num 10 |} ]) = false.
Proof.
  split; [| split; vm_compute; reflexivity].
  rewrite gpvRequired_iff_some_mppt_above_two. split.
  - intros (k & Hk).
    destruct (stringsOn_positive k (default [] (configuredStrings config))) as (s & _ & Hs);
      [lia |].
    exists (mpptIdx StringToNumber s). by rewrite stringsAssignedTo_stringsOn, Hs.
  - intros (idx & Hidx). exists (Js.ToPropertyKey idx).
    by rewrite <- stringsAssignedTo_stringsOn.
Qed.

(** A string whose [mpptIndex] is a number other than 0 and [NaN] is counted
    on that number. *)
Lemma mpptIdx_number (s : ConfiguredString) (x : float) :
  mpptIndex s = Js.Num x -> Js.truthyNumber x = true -> mpptIdx StringToNumber s = x.
Proof.
  intros Hs Hx. unfold mpptIdx, Js.or. rewrite Hs. cbn [Js.ToBoolean].
  rewrite Hx. reflexivity.
Qed.

Lemma mpptIdx_falsy (s : ConfiguredString) :
  Js.ToBoolean (mpptIndex s) = false -> mpptIdx StringToNumber s = 1%float.
Proof.
  intros Hf. unfold mpptIdx, Js.or. rewrite Hf. reflexivity.
Qed.

Lemma withStrings_lookup (config : InverterConfig) (l : list ConfiguredString) (k : Js.PropertyKey) :
  mpptParallelCounts StringToNumber (withStrings config l) !! k =
  someIfPositive (stringsOn StringToNumber k l).
Proof. rewrite mpptParallelCounts_lookup. reflexivity. Qed.

Lemma mpptParallelCounts_ext (config : InverterConfig) (l l' : list ConfiguredString) :
  (forall k, stringsOn StringToNumber k l = stringsOn StringToNumber k l') ->
  mpptParallelCounts StringToNumber (withStrings config l) =
  mpptParallelCounts StringToNumber (withStrings config l').
Proof.
  intros Hl. apply map_eq. intros k.
  rewrite !withStrings_lookup, Hl. reflexivity.
Qed.

(** C6. A configured string whose [mpptIndex] is missing is counted on MPPT
    index 1: it is counted (the count of index 1 grows by one), index 1 is
    not index 0, and the count of every other index is what it is without
    the string. *)
Theorem missing_mpptIndex_counted_on_1 (config : InverterConfig) (s : ConfiguredString)
    (before after : list ConfiguredString) :
  mpptIndex s = Js.Undefined ->
  let withS := mpptParallelCounts StringToNumber (withStrings config (before ++ s :: after)) in
  let without := mpptParallelCounts StringToNumber (withStrings config (before ++ after)) in
  mpptIdx StringToNumber s = 1%float /\
  Js.ToPropertyKey 1 <> Js.ToPropertyKey 0 /\
  withS !! Js.ToPropertyKey 1 = Some (S (default 0 (without !! Js.ToPropertyKey 1))) /\
  forall k, k <> Js.ToPropertyKey 1 -> withS !! k = without !! k.
Proof.
  intros Hs withS without.
  assert (mpptIdx StringToNumber s = 1%float) as Hidx
    by (apply mpptIdx_falsy; rewrite Hs; reflexivity).
  split; [exact Hidx |]. split; [discriminate |].
  subst withS without. split; [| intros k Hk];
    rewrite !withStrings_lookup, !stringsOn_app, stringsOn_cons, Hidx.
  - rewrite decide_True by reflexivity. apply someIfPositive_succ.
  - rewrite decide_False by congruence. reflexivity.
Qed.

(** C9. A configured string whose [mpptIndex] is falsy (0, [null], the empty
    string, as well as a missing field) is counted on MPPT index 1: the count
    of index 1 grows by one and the count of every other index is what it is
    without the string; replacing the string by one with a missing
    [mpptIndex] changes neither the counts nor the fuse rule. *)
Theorem falsy_mpptIndex_counted_as_missing (config : InverterConfig) (s s' : ConfiguredString)
    (before after : list ConfiguredString) :
  Js.ToBoolean (mpptIndex s) = false ->
  mpptIndex s' = Js.Undefined ->
  let withS := mpptParallelCounts StringToNumber (withStrings config (before ++ s :: after)) in
  let without := mpptParallelCounts StringToNumber (withStrings config (before ++ after)) in
  mpptIdx StringToNumber s = 1%float /\
  withS !! Js.ToPropertyKey 1 = Some (S (default 0 (without !! Js.ToPropertyKey 1))) /\
  (forall k, k <> Js.ToPropertyKey 1 -> withS !! k = without !! k) /\
  withS = mpptParallelCounts StringToNumber (withStrings config (before ++ s' :: after)) /\
  gpvRequired StringToNumber (withStrings config (before ++ s :: after)) =
  gpvRequired StringToNumber (withStrings config (before ++ s' :: after)).
Proof.
  intros Hs Hs' withS without.
  assert (mpptIdx StringToNumber s = 1%float) as Hidx by (by apply mpptIdx_falsy).
  assert (mpptIdx StringToNumber s' = 1%float) as Hidx'
    by (apply mpptIdx_falsy; rewrite Hs'; reflexivity).
  assert (withS =
          mpptParallelCounts StringToNumber (withStrings config (before ++ s' :: after))) as Hc.
  { apply mpptParallelCounts_ext. intros k.
    rewrite !stringsOn_app, !stringsOn_cons, Hidx, Hidx'. reflexivity. }
  split; [exact Hidx |].
  split; [| split; [| split; [exact Hc |]]].
  - subst withS without.
    rewrite !withStrings_lookup, !stringsOn_app, stringsOn_cons, Hidx.
    rewrite decide_True by reflexivity. apply someIfPositive_succ.
  - intros k Hk. subst withS without.
    rewrite !withStrings_lookup, !stringsOn_app, stringsOn_cons, Hidx.
    rewrite decide_False by congruence. reflexivity.
  - unfold gpvRequired, maxParallelStringsOnAnyMppt. fold withS. rewrite Hc. reflexivity.
Qed.

End ParallelStringsFacts.

Lemma missing_mpptIndex_counted_on_1_witness :
  mpptIndex (sampleString Js.Undefined) = Js.Undefined /\
  mpptParallelCounts sampleStringToNumber
    (withStrings sampleConfig [sampleString (Js.Num 1); sampleString Js.Undefined; sampleString (Js.Num 2)])
    !! Js.ToPropertyKey 1 =
  Some (S (default 0
    (mpptParallelCounts sampleStringToNumber
       (withStrings sampleConfig [sampleString (Js.Num 1); sampleString (Js.Num 2)])
     !! Js.ToPropertyKey 1))).
Proof.
  split; [reflexivity |].
  apply (missing_mpptIndex_counted_on_1 sampleStringToNumber sampleConfig
           (sampleString Js.Undefined) [sampleString (Js.Num 1)] [sampleString (Js.Num 2)]).
  reflexivity.
Defined.

Lemma falsy_mpptIndex_counted_as_missing_witness :
  Js.ToBoolean (mpptIndex (sampleString (Js.Num 0))) = false /\
  mpptParallelCounts sampleStringToNumber
    (withStrings sampleConfig [sampleString (Js.Num 1); sampleString (Js.Num 0); sampleString (Js.Num 1)])
    !! Js.ToPropertyKey 1 = Some 3 /\
  mpptParallelCounts sampleStringToNumber
    (withStrings sampleConfig [sampleString (Js.Num 1); sampleString (Js.Num 0); sampleString (Js.Num 1)]) =
  mpptParallelCounts sampleStringToNumber
    (withStrings sampleConfig [sampleString (Js.Num 1); sampleString Js.Undefined; sampleString (Js.Num 1)]).
Proof.
  split; [reflexivity |].
  destruct (falsy_mpptIndex_counted_as_missing sampleStringToNumber sampleConfig
              (sampleString (Js.Num 0)) (sampleString Js.Undefined)
              [sampleString (Js.Num 1)] [sampleString (Js.Num 1)] eq_refl eq_refl)
    as (_ & Hcount & _ & Hsame & _).
  split; [exact Hcount | exact Hsame].
Defined.

(** The falsy values the fields can hold. *)
Example falsy_values :
  Js.ToBoolean (Js.Num 0) = false /\ Js.ToBoolean (Js.Num (-0)) = false /\
  Js.ToBoolean (Js.Num nan) = false /\ Js.ToBoolean Js.Null = false /\
  Js.ToBoolean Js.Undefined = false /\ Js.ToBoolean (Js.Str "") = false /\
  Js.ToBoolean (Js.Boolean false) = false.
Proof. repeat split; reflexivity. Qed.

(** Three strings on MPPT 1 and one on MPPT 2 need fuses; two and two do
    not. *)
Example gpvRequired_three_and_one :
  gpvRequired sampleStringToNumber
    (withStrings sampleConfig
       [sampleString (Js.Num 1); sampleString (Js.Num 1); sampleString (Js.Num 1); sampleString (Js.Num 2)]) = true.
Proof. vm_compute. reflexivity. Qed.

(** Two strings on MPPT 1 and one with no index: three on MPPT 1. *)
Example gpvRequired_two_and_missing :
  gpvRequired sampleStringToNumber
    (withStrings sampleConfig
       [sampleString (Js.Num 1); sampleString (Js.Num 1); sampleString Js.Undefined]) = true.
Proof. vm_compute. reflexivity. Qed.

(** [null], the empty string and 0 are counted like a missing index. *)
Example falsy_indices_counted_alike :
  mpptParallelCounts sampleStringToNumber
    (withStrings sampleConfig [sampleString Js.Null; sampleString (Js.Str ""); sampleString (Js.Num 0)]) =
  mpptParallelCounts sampleStringToNumber
    (withStrings sampleConfig [sampleString Js.Undefined; sampleString Js.Undefined; sampleString Js.Undefined]).
Proof. vm_compute. reflexivity. Qed.

Example gpvRequired_two_and_two :
  gpvRequired sampleStringToNumber
    (withStrings sampleConfig
       [sampleString (Js.Num 1); sampleString (Js.Num 1); sampleString (Js.Num 2); sampleString (Js.Num 2)]) = false.
Proof. vm_compute. reflexivity. Qed.

(** ** The cumulated production drop *)

Lemma hasMicroBranches_branchList (microBranchesReport : option MicroBranchesReport) :
  hasMicroBranches microBranchesReport = true <-> branchList microBranchesReport <> [].
Proof.
  unfold hasMicroBranches, branchList.
  destruct microBranchesReport as [[[[|b bs]|]]|]; cbn; split;
    congruence || discriminate || auto.
Qed.

(** For drops other than [NaN] the [|| 0] guards change nothing: the
    cumulated drop is then [Math.max] of the branch drops plus the drop of
    the main feeder, up to the sign of zero. *)
Lemma totalProductionDrop_worst_branch_plus_feeder
    (microBranchesReport : option MicroBranchesReport) (voltageDrop : float) :
  (forall b, b ∈ branchList microBranchesReport -> PrimFloat.is_nan (dropPercent b) = false) ->
  PrimFloat.is_nan voltageDrop = false ->
  (branchList microBranchesReport <> [] ->
   Js.SameValueZero
     (totalProductionDrop microBranchesReport voltageDrop)
     (PrimFloat.add (Js.Math_max (map dropPercent (branchList microBranchesReport))) voltageDrop)
   = true) /\
  (branchList microBranchesReport = [] ->
   Js.SameValueZero (totalProductionDrop microBranchesReport voltageDrop) voltageDrop = true).
Proof.
  intros Hb Hv. unfold totalProductionDrop, worstBranchDrop. split; intros Hl.
  - rewrite (proj2 (hasMicroBranches_branchList _) Hl).
    apply SameValueZero_key, add_key.
    + unfold Js.Math_max. apply fold_max2_key; [| reflexivity].
      intros b Hin. apply orNumber_key, Hb, Hin.
    + by apply orNumber_key.
  - destruct (hasMicroBranches microBranchesReport) eqn:Hh.
    + apply hasMicroBranches_branchList in Hh. contradiction.
    + apply SameValueZero_key. by apply orNumber_key.
Qed.

Example totalProductionDrop_sample :
  totalProductionDrop sampleBranches 0.5 = 1.25%float.
Proof. vm_compute. reflexivity. Qed.

(** [|| 0] reads a [NaN] drop as 0, where [Math.max] alone would return
    [NaN]. *)
Example totalProductionDrop_nan_branch :
  totalProductionDrop
    (Some {| branches := Some [ {| branchId := "b1"; name := "Branche 1"; dropPercent := nan |} ] |})
    0.5 = 0.5%float /\
  PrimFloat.is_nan (PrimFloat.add (Js.Math_max [nan]) 0.5) = true.
Proof. vm_compute. split; reflexivity. Qed.

(** ** The value fallbacks *)

(** C4. When the report carries no inverter limit (no report, no details, or
    no such field), the limits are the defaults: 600 V for a Mono
    installation and 1000 V for a Tri one, and 80 V for the MPPT minimum. *)
Theorem inverter_limit_defaults (report : option CompatibilityReport) (config : InverterConfig) :
  (Js.isNullish (reportField vmaxInverter report) = true ->
   invVmaxLimit report (isThreePhase config) =
     Js.Num (if isThreePhase config then 1000 else 600) /\
   (phase config = Js.Str "Mono" -> invVmaxLimit report (isThreePhase config) = Js.Num 600) /\
   (phase config = Js.Str "Tri" -> invVmaxLimit report (isThreePhase config) = Js.Num 1000)) /\
  (Js.isNullish (reportField vminMppt report) = true -> invVmpMin report = Js.Num 80).
Proof.
  split.
  - intros Habs.
    assert (forall tri, invVmaxLimit report tri = Js.Num (if tri then 1000 else 600)) as H.
    { intros tri. unfold invVmaxLimit, Js.or.
      destruct (reportField vmaxInverter report); try discriminate Habs; reflexivity. }
    split; [apply H |]. split; intros Hp; rewrite H; unfold isThreePhase; rewrite Hp; reflexivity.
  - intros Habs. unfold invVmpMin, Js.or.
    destruct (reportField vminMppt report); try discriminate Habs; reflexivity.
Qed.

Lemma inverter_limit_defaults_witness :
  Js.isNullish (reportField vmaxInverter None) = true /\
  invVmaxLimit None (isThreePhase sampleConfig) = Js.Num 600 /\
  invVmpMin (Some {| details := None |}) = Js.Num 80.
Proof.
  split; [reflexivity |]. split.
  - apply (inverter_limit_defaults None sampleConfig); reflexivity.
  - apply (inverter_limit_defaults (Some {| details := None |}) sampleConfig). reflexivity.
Defined.

(** C10. The fallbacks test truthiness, so a value that is exactly 0 reads
    as an absent one: a [vmaxInverter] of 0 gives the default limit (600 V
    Mono, 1000 V Tri), a [vminMppt] of 0 gives 80 V, and a [vocCold] of 0
    gives what a missing report gives. *)
Theorem zero_reads_as_absent (d : Details) (isThreePhase : bool) :
  (vmaxInverter d = Js.Num 0 ->
   invVmaxLimit (Some {| details := Some d |}) isThreePhase =
     Js.Num (if isThreePhase then 1000 else 600) /\
   invVmaxLimit (Some {| details := Some d |}) isThreePhase = invVmaxLimit None isThreePhase) /\
  (vminMppt d = Js.Num 0 ->
   invVmpMin (Some {| details := Some d |}) = Js.Num 80 /\
   invVmpMin (Some {| details := Some d |}) = invVmpMin None) /\
  (vocCold d = Js.Num 0 ->
   vocColdString (Some {| details := Some d |}) = vocColdString None).
Proof.
  unfold invVmaxLimit, invVmpMin, vocColdString, reportField; cbn [details].
  split; [| split]; intros Hd; rewrite Hd; try split; reflexivity.
Qed.

Lemma zero_reads_as_absent_witness :
  vmaxInverter sampleZeroReport = Js.Num 0 /\
  invVmaxLimit (Some {| details := Some sampleZeroReport |}) true = Js.Num 1000 /\
  invVmpMin (Some {| details := Some sampleZeroReport |}) = Js.Num 80 /\
  vocColdString (Some {| details := Some sampleZeroReport |}) = vocColdString None.
Proof.
  split; [reflexivity |]. split; [| split].
  - apply (zero_reads_as_absent sampleZeroReport true). reflexivity.
  - apply (zero_reads_as_absent sampleZeroReport true). reflexivity.
  - apply (zero_reads_as_absent sampleZeroReport true). reflexivity.
Defined.

(** ** The subscription note *)

Lemma subscriptionNote_unknown (st : SubscriptionStatus) :
  subscribedKva st = None ->
  subscriptionNote st =
  {| className := "font-bold";
     children := [Text "Puissance souscrite non renseignée (AGCP). À vérifier auprès du fournisseur/gestionnaire de réseau."] |}.
Proof. intros Hs. unfold subscriptionNote. rewrite Hs. reflexivity. Qed.

Lemma subscriptionNote_known (st : SubscriptionStatus) (kva : float) :
  subscribedKva st = Some kva ->
  className (subscriptionNote st) =
  if isOk st then "font-bold text-green-700" else "font-bold text-red-700".
Proof.
  intros Hs. unfold subscriptionNote. rewrite Hs. destruct (isOk st); reflexivity.
Qed.

(** C5. A status whose [subscribedKva] is [null] has [isOk = false], where
    [isOk = subscribedKva != null && subscribedKva >= recommendedKva], and is
    rendered as the "unknown" note, which no status with a known subscribed
    power is rendered as, an under-provisioned one ([isOk = false])
    included. *)
Theorem unknown_subscription_is_not_ok_and_distinct
    (recommendedTier : Phase -> float -> option float)
    (subscribedFromAgcp : Js.Value -> option float)
    (phase : Phase) (projectPowerKwc : float) (agcpA : Js.Value) :
  let st := getSubscriptionStatus recommendedTier subscribedFromAgcp phase projectPowerKwc agcpA in
  isOk st = match subscribedKva st with
            | Some kva => atLeastRecommended kva (recommendedKva st)
            | None => false
            end /\
  (subscribedKva st = None ->
   isOk st = false /\
   className (subscriptionNote st) = "font-bold" /\
   forall known : SubscriptionStatus,
     subscribedKva known <> None ->
     subscriptionNote known <> subscriptionNote st).
Proof.
  intros st. split; [reflexivity |]. intros Hs. split; [| split].
  - subst st. cbn in *. rewrite Hs. reflexivity.
  - rewrite (subscriptionNote_unknown st Hs). reflexivity.
  - intros known Hk Heq.
    destruct (subscribedKva known) as [kva|] eqn:Hkva; [| congruence].
    apply (f_equal className) in Heq.
    rewrite (subscriptionNote_known known kva Hkva), (subscriptionNote_unknown st Hs) in Heq.
    destruct (isOk known); discriminate Heq.
Qed.

Lemma unknown_subscription_is_not_ok_and_distinct_witness :
  subscribedKva (getSubscriptionStatus sampleTier sampleAgcp Mono 3 Js.Undefined) = None /\
  isOk (getSubscriptionStatus sampleTier sampleAgcp Mono 3 Js.Undefined) = false /\
  subscriptionNote {| recommendedKva := Some 6%float; subscribedKva := Some 3%float;
                      isOk := false; statusPhase := Mono |} <>
  subscriptionNote (getSubscriptionStatus sampleTier sampleAgcp Mono 3 Js.Undefined).
Proof.
  split; [reflexivity |].
  destruct (unknown_subscription_is_not_ok_and_distinct sampleTier sampleAgcp Mono 3 Js.Undefined)
    as [_ H].
  destruct (H eq_refl) as (Hok & _ & Hdistinct).
  split; [exact Hok |]. apply Hdistinct. discriminate.
Defined.

(** ** Recommended margins *)

Local Open Scope Z_scope.

(** C1. For every roof type and wind zone the margins are those of the
    table: the base margin of the zone (300 mm for zones 1 and 2, 400 mm for
    zone 3, 500 mm for zone 4, 600 mm for zone 5) at the top and bottom, and
    the base margin plus the adjustment of the roof type on the sides; zone 5
    with fibrociment gives 600, 600, 700, 700 and zone 1 with mechanical
    tiles gives 300 on every side. *)
Theorem getRecommendedMargins_table :
  (forall (roofType : RoofType) (windZone : WindZone),
     getRecommendedMargins roofType windZone =
     {| top := specBaseMargin windZone;
        bottom := specBaseMargin windZone;
        left := specBaseMargin windZone + specSideAdjustment roofType;
        right := specBaseMargin windZone + specSideAdjustment roofType |}) /\
  getRecommendedMargins FIBROCIMENT ZONE_5 =
    {| top := 600; bottom := 600; left := 700; right := 700 |} /\
  getRecommendedMargins TUILE_MECANIQUE ZONE_1 =
    {| top := 300; bottom := 300; left := 300; right := 300 |}.
Proof.
  split; [| split; reflexivity].
  intros roofType windZone. destruct roofType, windZone; reflexivity.
Qed.

(** C7. For every wind zone, the roof type reaches the left and right
    margins only, by +50 mm for canal tiles, +100 mm for fibrociment and
    nothing otherwise; the top and bottom margins are the base margin of the
    zone whatever the roof type. *)
Theorem roof_type_adjusts_side_margins_only (windZone : WindZone) (roofType roofType' : RoofType) :
  top (getRecommendedMargins roofType windZone) = specBaseMargin windZone /\
  bottom (getRecommendedMargins roofType windZone) = specBaseMargin windZone /\
  top (getRecommendedMargins roofType windZone) = top (getRecommendedMargins roofType' windZone) /\
  bottom (getRecommendedMargins roofType windZone) = bottom (getRecommendedMargins roofType' windZone) /\
  left (getRecommendedMargins roofType windZone) =
    specBaseMargin windZone +
    match roofType with TUILE_CANAL => 50 | FIBROCIMENT => 100 | _ => 0 end /\
  right (getRecommendedMargins roofType windZone) =
    specBaseMargin windZone +
    match roofType with TUILE_CANAL => 50 | FIBROCIMENT => 100 | _ => 0 end.
Proof.
  destruct windZone, roofType, roofType'; cbn; repeat split; reflexivity.
Qed.

Local Close Scope Z_scope.

(** ** The material pages *)

Local Open Scope list_scope.
Local Open Scope nat_scope.

Lemma chunkLoop_done {A : Type} (rows : list A) (i : nat) (chunks : list (list A)) :
  length rows <= i -> chunkLoop rows i chunks = chunks.
Proof.
  intros Hi. rewrite chunkLoop_equation_1.
  destruct (inspect (Nat.ltb i (length rows))) as [[] e]; simp chunkLoop; [| reflexivity].
  apply Nat.ltb_lt in e. lia.
Qed.

Lemma chunkLoop_step {A : Type} (rows : list A) (i : nat) (chunks : list (list A)) :
  i < length rows ->
  chunkLoop rows i chunks =
  chunkLoop rows (i + ITEMS_PER_PAGE) (chunks ++ [slice rows i (i + ITEMS_PER_PAGE)]).
Proof.
  intros Hi. rewrite chunkLoop_equation_1 at 1.
  destruct (inspect (Nat.ltb i (length rows))) as [[] e]; simp chunkLoop; [reflexivity |].
  apply Nat.ltb_ge in e. lia.
Qed.

(** The chunks pushed before a round stay in front of the later ones. *)
Lemma chunkLoop_acc {A : Type} (rows : list A) (i : nat) (chunks : list (list A)) :
  chunkLoop rows i chunks = chunks ++ chunkLoop rows i [].
Proof.
  remember (length rows - i) as m eqn:Hm.
  revert i chunks Hm. induction (lt_wf m) as [m _ IH]. intros i chunks ->.
  destruct (Nat.lt_ge_cases i (length rows)) as [Hi | Hi].
  - rewrite (chunkLoop_step rows i chunks Hi), (chunkLoop_step rows i [] Hi).
    unfold ITEMS_PER_PAGE in *.
    rewrite (IH (length rows - (i + 14))) by (reflexivity || lia).
    rewrite (IH (length rows - (i + 14)) ltac:(lia) (i + 14) ([] ++ _)) by reflexivity.
    rewrite <- !app_assoc. reflexivity.
  - rewrite !chunkLoop_done by assumption. by rewrite app_nil_r.
Qed.

Lemma chunkLoop_cons {A : Type} (rows : list A) (i : nat) :
  i < length rows ->
  chunkLoop rows i [] = slice rows i (i + ITEMS_PER_PAGE) :: chunkLoop rows (i + ITEMS_PER_PAGE) [].
Proof.
  intros Hi. rewrite chunkLoop_step by assumption. rewrite chunkLoop_acc. reflexivity.
Qed.

Lemma slice_page {A : Type} (rows : list A) (i : nat) :
  slice rows i (i + ITEMS_PER_PAGE) = take ITEMS_PER_PAGE (drop i rows).
Proof. unfold slice. f_equal. lia. Qed.

(** The chunk at position [k] of the loop started at [i]. *)
Lemma chunkLoop_lookup {A : Type} (rows : list A) (k i : nat) :
  chunkLoop rows i [] !! k =
  if Nat.ltb (i + ITEMS_PER_PAGE * k) (length rows)
  then Some (take ITEMS_PER_PAGE (drop (i + ITEMS_PER_PAGE * k) rows))
  else None.
Proof.
  revert i. induction k as [|k IH]; intros i.
  - rewrite Nat.mul_0_r, Nat.add_0_r.
    destruct (Nat.ltb_spec i (length rows)) as [Hi | Hi].
    + rewrite chunkLoop_cons by assumption. cbn. by rewrite slice_page.
    + rewrite chunkLoop_done by assumption. reflexivity.
  - destruct (Nat.lt_ge_cases i (length rows)) as [Hi | Hi].
    + rewrite chunkLoop_cons by assumption. cbn [lookup list_lookup].
      rewrite IH. replace (i + ITEMS_PER_PAGE + ITEMS_PER_PAGE * k)
        with (i + ITEMS_PER_PAGE * S k) by lia. reflexivity.
    + rewrite chunkLoop_done by assumption.
      destruct (Nat.ltb_spec (i + ITEMS_PER_PAGE * S k) (length rows)); [lia | reflexivity].
Qed.

Lemma chunkLoop_concat {A : Type} (rows : list A) (i : nat) :
  concat (chunkLoop rows i []) = drop i rows.
Proof.
  remember (length rows - i) as m eqn:Hm.
  revert i Hm. induction (lt_wf m) as [m _ IH]. intros i ->.
  destruct (Nat.lt_ge_cases i (length rows)) as [Hi | Hi].
  - rewrite chunkLoop_cons by assumption. cbn [concat].
    rewrite (IH (length rows - (i + ITEMS_PER_PAGE))) by (reflexivity || unfold ITEMS_PER_PAGE; lia).
    rewrite slice_page, <- drop_drop. apply take_drop.
  - rewrite chunkLoop_done by assumption. by rewrite drop_ge.
Qed.

Lemma chunkLoop_nil_iff {A : Type} (rows : list A) :
  chunkLoop rows 0 [] = [] <-> rows = [].
Proof.
  split.
  - intros Hc. destruct rows as [|r rows]; [reflexivity |].
    rewrite chunkLoop_cons in Hc by (cbn; lia). discriminate.
  - intros ->. by rewrite chunkLoop_done.
Qed.

Lemma materialChunks_nonempty_rows {A : Type} (rows : list A) :
  rows <> [] -> materialChunks rows = chunkLoop rows 0 [].
Proof.
  intros Hr. unfold materialChunks. cbn zeta.
  destruct (chunkLoop rows 0 []) as [|c cs] eqn:Hc; [| reflexivity].
  apply (proj1 (chunkLoop_nil_iff rows)) in Hc. congruence.
Qed.

Lemma materialChunks_nil {A : Type} : materialChunks (@nil A) = [[]].
Proof. reflexivity. Qed.

(** X1. The chunks, put end to end, are the rows: no row is lost, repeated
    or moved. *)
Theorem materialChunks_concat {A : Type} (printableRows : list A) :
  concat (materialChunks printableRows) = printableRows.
Proof.
  destruct printableRows as [|r rows]; [reflexivity |].
  rewrite materialChunks_nonempty_rows by discriminate.
  rewrite chunkLoop_concat. reflexivity.
Qed.

(** X2. Row [j] of material page [k] is row [14 k + j] of the list, for
    [j] below the page size; a page or a row that does not exist on one side
    does not exist on the other. *)
Theorem materialChunks_row {A : Type} (printableRows : list A) (k j : nat) :
  j < ITEMS_PER_PAGE ->
  materialChunks printableRows !! k ≫= (fun chunk => chunk !! j) =
  printableRows !! (ITEMS_PER_PAGE * k + j).
Proof.
  intros Hj. destruct printableRows as [|r rows].
  - rewrite materialChunks_nil. destruct k; reflexivity.
  - rewrite materialChunks_nonempty_rows by discriminate.
    rewrite chunkLoop_lookup. cbn [Nat.add].
    destruct (Nat.ltb_spec (ITEMS_PER_PAGE * k) (length (r :: rows))) as [Hk | Hk]; cbn [mbind option_bind].
    + rewrite lookup_take_lt by assumption. rewrite lookup_drop. reflexivity.
    + symmetry. apply lookup_ge_None. lia.
Qed.

Lemma materialChunks_row_witness :
  3 < ITEMS_PER_PAGE /\
  materialChunks (seq 0 30) !! 1 ≫= (fun chunk => chunk !! 3) = Some 17.
Proof.
  split; [unfold ITEMS_PER_PAGE; lia |].
  rewrite (materialChunks_row (seq 0 30) 1 3); [reflexivity | unfold ITEMS_PER_PAGE; lia].
Defined.

Lemma chunkLoop_length {A : Type} (rows : list A) (i : nat) :
  length (chunkLoop rows i []) = (length rows - i + 13) / ITEMS_PER_PAGE.
Proof.
  remember (length rows - i) as m eqn:Hm.
  revert i Hm. induction (lt_wf m) as [m _ IH]. intros i ->.
  destruct (Nat.lt_ge_cases i (length rows)) as [Hi | Hi].
  - rewrite chunkLoop_cons by assumption. cbn [length].
    rewrite (IH (length rows - (i + ITEMS_PER_PAGE))) by (reflexivity || unfold ITEMS_PER_PAGE; lia).
    unfold ITEMS_PER_PAGE.
    destruct (Nat.le_gt_cases (i + 14) (length rows)) as [Hfull | Hlast].
    + replace (length rows - i + 13) with (length rows - (i + 14) + 13 + 1 * 14) by lia.
      rewrite Nat.div_add by discriminate. lia.
    + replace (length rows - (i + 14) + 13) with 13 by lia.
      change (13 / 14) with 0.
      apply Nat.div_unique with (r := length rows - i - 1); lia.
  - rewrite chunkLoop_done by assumption. cbn [length].
    replace (length rows - i + 13) with 13 by lia. reflexivity.
Qed.

(** X3. The material list takes as many pages as it needs at 14 rows a
    page, and one page when there is no row. *)
Theorem materialChunks_length {A : Type} (printableRows : list A) :
  length (materialChunks printableRows) =
  Nat.max 1 ((length printableRows + 13) / ITEMS_PER_PAGE).
Proof.
  destruct printableRows as [|r rows]; [reflexivity |].
  rewrite materialChunks_nonempty_rows by discriminate.
  rewrite chunkLoop_length, Nat.sub_0_r.
  assert (1 <= (length (r :: rows) + 13) / ITEMS_PER_PAGE); [| lia].
  apply Nat.div_le_lower_bound; [discriminate |]. cbn [length]. unfold ITEMS_PER_PAGE. lia.
Qed.

(** X4. A material page holds at most 14 rows; every page but the last
    holds exactly 14; and no page is empty unless the list has no row. *)
Theorem materialChunks_sizes {A : Type} (printableRows : list A) (k : nat) (chunk : list A) :
  materialChunks printableRows !! k = Some chunk ->
  length chunk <= ITEMS_PER_PAGE /\
  (S k < length (materialChunks printableRows) -> length chunk = ITEMS_PER_PAGE) /\
  (printableRows <> [] -> chunk <> []).
Proof.
  destruct printableRows as [|r rows].
  - rewrite materialChunks_nil. destruct k; [| discriminate].
    intros [= <-]. cbn. split; [lia |]. split; [lia | congruence].
  - rewrite materialChunks_nonempty_rows by discriminate.
    rewrite chunkLoop_lookup. cbn [Nat.add].
    destruct (Nat.ltb_spec (ITEMS_PER_PAGE * k) (length (r :: rows))) as [Hk | Hk];
      [| discriminate].
    intros [= <-]. rewrite length_take, length_drop. split; [lia |]. split.
    + intros Hnext. apply lookup_lt_is_Some in Hnext as [next Hnext].
      rewrite chunkLoop_lookup in Hnext. cbn [Nat.add] in Hnext.
      destruct (Nat.ltb_spec (ITEMS_PER_PAGE * S k) (length (r :: rows))) as [Hk' | Hk'];
        [| discriminate].
      unfold ITEMS_PER_PAGE in *. lia.
    + intros _ Hnil. apply (f_equal length) in Hnil.
      rewrite length_take, length_drop in Hnil. unfold ITEMS_PER_PAGE in *. cbn [length] in *. lia.
Qed.

Lemma materialChunks_sizes_witness :
  materialChunks (seq 0 30) !! 1 = Some (seq 14 14) /\
  length (seq 14 14) = ITEMS_PER_PAGE.
Proof.
  split; [reflexivity |].
  apply (materialChunks_sizes (seq 0 30) 1 (seq 14 14)); [reflexivity |].
  vm_compute. lia.
Defined.

(** ** The rows of the material list *)

Section PrintableRowsFacts.

Variable StringToNumber : string -> float.
Variable toLowerCase : string -> string.
Variable agcpValue : Js.Value.

Abbreviation addItem := (addItemWithWarning StringToNumber toLowerCase agcpValue).
Abbreviation addSub := (addSubSection StringToNumber toLowerCase agcpValue).
Abbreviation addGrp := (addGroup StringToNumber toLowerCase agcpValue).
Abbreviation coffretAc := (isCoffretAc toLowerCase).
Abbreviation notGiven := (agcpNotGiven StringToNumber agcpValue).

(** Folding a step that keeps a property keeps it. *)
Lemma foldl_invariant {A B : Type} (P : A -> Prop) (f : A -> B -> A) (l : list B) (a : A) :
  (forall a b, P a -> P (f a b)) -> P a -> P (foldl f a l).
Proof.
  intros Hf. revert a. induction l as [|b l IH]; intros a Ha; cbn [foldl]; auto.
Qed.

Lemma addItem_materials (rows : list PrintableRow) (item : Material) :
  omap rowMaterial (addItem rows item) = omap rowMaterial rows ++ [item].
Proof.
  unfold addItemWithWarning. cbn zeta.
  destruct (coffretAc item && notGiven); rewrite !omap_app; cbn; by rewrite ?app_nil_r.
Qed.

Lemma foldl_addItem_materials (items : list Material) (rows : list PrintableRow) :
  omap rowMaterial (foldl addItem rows items) = omap rowMaterial rows ++ items.
Proof.
  revert rows. induction items as [|item items IH]; intros rows; cbn [foldl].
  - by rewrite app_nil_r.
  - rewrite IH, addItem_materials, <- app_assoc. reflexivity.
Qed.

Lemma foldl_addSub_materials (subs : list SubSection.t) (rows : list PrintableRow) :
  omap rowMaterial (foldl addSub rows subs) =
  omap rowMaterial rows ++ flat_map SubSection.items subs.
Proof.
  revert rows. induction subs as [|sub subs IH]; intros rows; cbn [foldl flat_map].
  - by rewrite app_nil_r.
  - rewrite IH. unfold addSubSection.
    rewrite foldl_addItem_materials, omap_app. cbn. by rewrite app_nil_r, <- app_assoc.
Qed.

Lemma addGrp_materials (rows : list PrintableRow) (g : Group.t) :
  omap rowMaterial (addGrp rows g) = omap rowMaterial rows ++ groupMaterials g.
Proof.
  unfold addGroup, groupMaterials. cbn zeta.
  destruct (Group.subSections g) as [subs|]; cbn [default from_option id flat_map].
  - rewrite foldl_addSub_materials, foldl_addItem_materials, omap_app. cbn.
    by rewrite app_nil_r, <- app_assoc.
  - rewrite foldl_addItem_materials, omap_app. cbn. by rewrite !app_nil_r.
Qed.

(** X5. The item rows are the materials of the groups, each group's own
    items before those of its sub-sections, in their order: no material is
    dropped, repeated or moved. *)
Theorem printableRows_materials (grouped : list Group.t) :
  omap rowMaterial (printableRows StringToNumber toLowerCase agcpValue grouped) =
  flat_map groupMaterials grouped.
Proof.
  unfold printableRows.
  enough (forall rows, omap rowMaterial (foldl addGrp rows grouped) =
                       omap rowMaterial rows ++ flat_map groupMaterials grouped) as H
    by apply (H []).
  induction grouped as [|g grouped IH]; intros rows; cbn [foldl flat_map].
  - by rewrite app_nil_r.
  - rewrite IH, addGrp_materials, <- app_assoc. reflexivity.
Qed.

Abbreviation warningsAfterCoffret rows :=
  (forall k text, rows !! k = Some (Warning text) ->
     notGiven = true /\
     exists k' m, k = S k' /\ rows !! k' = Some (Item m) /\ coffretAc m = true).

Lemma warningsAfterCoffret_snoc (rows : list PrintableRow) (row : PrintableRow) :
  (forall text, row <> Warning text) ->
  warningsAfterCoffret rows -> warningsAfterCoffret (rows ++ [row]).
Proof.
  intros Hrow Hrows k text [[_ Hk] | [_ Hk]]%lookup_snoc_Some.
  - destruct (Hrows k text Hk) as (Hn & k' & m & -> & Hk' & Hm).
    split; [assumption |]. exists k', m. split; [reflexivity |]. split; [| assumption].
    by apply lookup_app_l_Some.
  - by destruct (Hrow text).
Qed.

Lemma warningsAfterCoffret_addItem (rows : list PrintableRow) (item : Material) :
  warningsAfterCoffret rows -> warningsAfterCoffret (addItem rows item).
Proof.
  intros Hrows. unfold addItemWithWarning. cbn zeta.
  assert (warningsAfterCoffret (rows ++ [Item item])) as Hitem
    by (apply warningsAfterCoffret_snoc; [discriminate | assumption]).
  destruct (coffretAc item && notGiven) eqn:Hc; [| exact Hitem].
  apply andb_true_iff in Hc as [Hcoffret Hagcp].
  intros k text [[_ Hk] | [-> _]]%lookup_snoc_Some.
  - destruct (Hitem k text Hk) as (Hn & k' & m & -> & Hk' & Hm).
    split; [assumption |]. exists k', m. split; [reflexivity |]. split; [| assumption].
    by apply lookup_app_l_Some.
  - split; [assumption |]. exists (length rows), item.
    rewrite length_app. cbn [length]. split; [lia |]. split; [| assumption].
    apply lookup_app_l_Some. by apply list_lookup_middle.
Qed.

Lemma warningsAfterCoffret_addGrp (rows : list PrintableRow) (g : Group.t) :
  warningsAfterCoffret rows -> warningsAfterCoffret (addGrp rows g).
Proof.
  intros Hrows. unfold addGroup. cbn zeta.
  assert (warningsAfterCoffret (foldl addItem (rows ++ [Header (Group.category g)]) (Group.items g)))
    as Hitems.
  { apply (foldl_invariant (fun rows => warningsAfterCoffret rows)).
    - intros a b. apply warningsAfterCoffret_addItem.
    - apply warningsAfterCoffret_snoc; [discriminate | assumption]. }
  destruct (Group.subSections g) as [subs|]; [| exact Hitems].
  apply (foldl_invariant (fun rows => warningsAfterCoffret rows)); [| exact Hitems].
  intros a sub Ha. unfold addSubSection.
  apply (foldl_invariant (fun rows => warningsAfterCoffret rows)).
  - intros a' b. apply warningsAfterCoffret_addItem.
  - apply warningsAfterCoffret_snoc; [discriminate | assumption].
Qed.

Lemma printableRows_warningsAfterCoffret (grouped : list Group.t) :
  warningsAfterCoffret (printableRows StringToNumber toLowerCase agcpValue grouped).
Proof.
  unfold printableRows.
  apply (foldl_invariant (fun rows => warningsAfterCoffret rows)).
  - intros a g. apply warningsAfterCoffret_addGrp.
  - intros k text Hk. inversion Hk.
Qed.

(** X6. A warning row is only ever found right after the row of an item
    whose description mentions "coffret ac", and only when the AGCP rating is
    missing or not positive; in particular the list never starts with a
    warning, and no header is followed by one. *)
Theorem warning_follows_coffret_item (grouped : list Group.t) (k : nat) (text : string) :
  printableRows StringToNumber toLowerCase agcpValue grouped !! k = Some (Warning text) ->
  agcpNotGiven StringToNumber agcpValue = true /\
  exists k' m,
    k = S k' /\
    printableRows StringToNumber toLowerCase agcpValue grouped !! k' = Some (Item m) /\
    isCoffretAc toLowerCase m = true.
Proof. apply printableRows_warningsAfterCoffret. Qed.

Abbreviation coffretWarned rows :=
  (forall k m, rows !! k = Some (Item m) -> coffretAc m = true ->
     exists text, rows !! S k = Some (Warning text)).

Lemma coffretWarned_snoc (rows : list PrintableRow) (row : PrintableRow) :
  (forall m, row <> Item m) ->
  coffretWarned rows -> coffretWarned (rows ++ [row]).
Proof.
  intros Hrow Hrows k m [[_ Hk] | [_ Hk]]%lookup_snoc_Some Hm.
  - destruct (Hrows k m Hk Hm) as [text Ht]. exists text. by apply lookup_app_l_Some.
  - by destruct (Hrow m).
Qed.

Lemma coffretWarned_addItem (rows : list PrintableRow) (item : Material) :
  notGiven = true -> coffretWarned rows -> coffretWarned (addItem rows item).
Proof.
  intros Hagcp Hrows. unfold addItemWithWarning. cbn zeta.
  rewrite Hagcp, andb_true_r.
  destruct (coffretAc item) eqn:Hc.
  - intros k m [[_ [[_ Hk] | [-> Hk]]%lookup_snoc_Some] | [_ Hk]]%lookup_snoc_Some Hm;
      [| | discriminate Hk].
    + destruct (Hrows k m Hk Hm) as [text Ht]. exists text.
      rewrite <- app_assoc. by apply lookup_app_l_Some.
    + eexists. rewrite <- app_assoc. cbn [app].
      replace (S (length rows)) with (length rows + 1) by lia.
      rewrite lookup_app_r by lia. replace (length rows + 1 - length rows) with 1 by lia.
      reflexivity.
  - intros k m [[_ Hk] | [_ Hk]]%lookup_snoc_Some Hm.
    + destruct (Hrows k m Hk Hm) as [text Ht]. exists text. by apply lookup_app_l_Some.
    + congruence.
Qed.

Lemma coffretWarned_addGrp (rows : list PrintableRow) (g : Group.t) :
  notGiven = true -> coffretWarned rows -> coffretWarned (addGrp rows g).
Proof.
  intros Hagcp Hrows. unfold addGroup. cbn zeta.
  assert (coffretWarned (foldl addItem (rows ++ [Header (Group.category g)]) (Group.items g)))
    as Hitems.
  { apply (foldl_invariant (fun rows => coffretWarned rows)).
    - intros a b. by apply coffretWarned_addItem.
    - apply coffretWarned_snoc; [discriminate | assumption]. }
  destruct (Group.subSections g) as [subs|]; [| exact Hitems].
  apply (foldl_invariant (fun rows => coffretWarned rows)); [| exact Hitems].
  intros a sub Ha. unfold addSubSection.
  apply (foldl_invariant (fun rows => coffretWarned rows)).
  - intros a' b. by apply coffretWarned_addItem.
  - apply coffretWarned_snoc; [discriminate | assumption].
Qed.

(** X7. When the AGCP rating is missing or not positive, the row of every
    item whose description mentions "coffret ac" is followed at once by a
    warning row. *)
Theorem coffret_item_is_warned (grouped : list Group.t) (k : nat) (m : Material) :
  agcpNotGiven StringToNumber agcpValue = true ->
  printableRows StringToNumber toLowerCase agcpValue grouped !! k = Some (Item m) ->
  isCoffretAc toLowerCase m = true ->
  exists text,
    printableRows StringToNumber toLowerCase agcpValue grouped !! S k = Some (Warning text).
Proof.
  intros Hagcp. revert k m. unfold printableRows.
  apply (foldl_invariant (fun rows => coffretWarned rows)).
  - intros a g. by apply coffretWarned_addGrp.
  - intros k m Hk. inversion Hk.
Qed.

End PrintableRowsFacts.

Lemma warning_follows_coffret_item_witness :
  printableRows sampleStringToNumber sampleToLowerCase Js.Undefined sampleGrouped !! 2 =
    Some (Warning "Disjoncteur non livré dans les coffrets AC à calibrer et a ajouter en fonction de l'AGCP client") /\
  exists k' m,
    2 = S k' /\
    printableRows sampleStringToNumber sampleToLowerCase Js.Undefined sampleGrouped !! k' = Some (Item m) /\
    isCoffretAc sampleToLowerCase m = true.
Proof.
  split; [reflexivity |].
  apply (warning_follows_coffret_item sampleStringToNumber sampleToLowerCase Js.Undefined
           sampleGrouped 2 _ eq_refl).
Defined.

Lemma coffret_item_is_warned_witness :
  agcpNotGiven sampleStringToNumber (Js.Num 0) = true /\
  exists text,
    printableRows sampleStringToNumber sampleToLowerCase (Js.Num 0) sampleGrouped !! 2 =
    Some (Warning text).
Proof.
  split; [reflexivity |].
  apply (coffret_item_is_warned sampleStringToNumber sampleToLowerCase (Js.Num 0)
           sampleGrouped 1 {| description := "Coffret AC 3kW mono" |}); reflexivity.
Defined.

Example printableRows_sample :
  printableRows sampleStringToNumber sampleToLowerCase (Js.Num 30) sampleGrouped =
  [ Header "Protection";
    Item {| description := "Coffret AC 3kW mono" |};
    Item {| description := "Cable solaire 6mm2" |};
    Subheader "Accessoires";
    Item {| description := "Connecteur MC4" |} ].
Proof. vm_compute. reflexivity. Qed.

(** A positive number is truthy and not below zero. *)
Lemma agcpNotGiven_positive (StringToNumber : string -> float) (x : float) :
  PrimFloat.ltb 0 x = true -> agcpNotGiven StringToNumber (Js.Num x) = false.
Proof.
  intros Hx. unfold agcpNotGiven. cbn [Js.ToBoolean Js.Number].
  unfold Js.truthyNumber, PrimFloat.is_nan.
  rewrite ltb_spec in Hx. rewrite leb_spec, !FloatAxioms.eqb_spec.
  change (Prim2SF 0) with (S754_zero false) in *.
  destruct (Prim2SF x) as [s|[]| |[] m e]; try discriminate Hx.
  - reflexivity.
  - unfold SFeqb, SFleb. rewrite (proj2 (SFcompare_finite_Eq false false m m e e)) by auto.
    reflexivity.
Qed.

(** X8. With a positive AGCP rating the material list holds no warning
    row. *)
Theorem no_warning_with_positive_agcp (StringToNumber : string -> float)
    (toLowerCase : string -> string) (agcp : float) (grouped : list Group.t)
    (k : nat) (text : string) :
  PrimFloat.ltb 0 agcp = true ->
  printableRows StringToNumber toLowerCase (Js.Num agcp) grouped !! k <> Some (Warning text).
Proof.
  intros Hagcp Hk.
  apply printableRows_warningsAfterCoffret in Hk as [Hn _].
  rewrite agcpNotGiven_positive in Hn by assumption. discriminate.
Qed.

Lemma no_warning_with_positive_agcp_witness :
  PrimFloat.ltb 0 30 = true /\
  printableRows sampleStringToNumber sampleToLowerCase (Js.Num 30) sampleGrouped !! 2 <>
  Some (Warning "Disjoncteur non livré dans les coffrets AC à calibrer et a ajouter en fonction de l'AGCP client").
Proof.
  split; [reflexivity |].
  apply (no_warning_with_positive_agcp sampleStringToNumber sampleToLowerCase 30 sampleGrouped 2).
  reflexivity.
Defined.

(** ** Page numbers *)

Abbreviation numberedFrom start pages :=
  (forall (k : nat) (kind : PageKind) (n : Z),
     pages !! k = Some (kind, Some n) ->
     n = (Z.of_nat (start + k) + 1 + (if isAppendix kind then 1 else 0))%Z).

Lemma numberedFrom_app (start : nat) (pages1 pages2 : list Page) :
  numberedFrom start pages1 ->
  numberedFrom (start + length pages1) pages2 ->
  numberedFrom start (pages1 ++ pages2).
Proof.
  intros H1 H2 k kind n [Hk | [Hlen Hk]]%lookup_app_Some.
  - by apply H1.
  - apply H2 in Hk. lia.
Qed.

Lemma roofPages_length {F : Type} (fields : list F) (pair : nat -> F -> list Page) :
  (forall index field, length (pair index field) = 2) ->
  length (concat (imap pair fields)) = 2 * length fields.
Proof.
  revert pair. induction fields as [|f fields IH]; intros pair Hpair; [reflexivity |].
  rewrite imap_cons. cbn [concat]. rewrite length_app, Hpair.
  rewrite IH by (intros; apply Hpair). cbn [length]. lia.
Qed.

Lemma roofPages_numbered {F : Type} (fields : list F) (offset : nat) :
  numberedFrom (1 + 2 * offset)
    (concat (imap (fun index _ =>
       [(RoofOverview, Some (1 + (Z.of_nat (offset + index) * 2) + 1)%Z);
        (RoofLayout, Some (1 + (Z.of_nat (offset + index) * 2) + 2)%Z)]) fields)).
Proof.
  revert offset. induction fields as [|f fields IH]; intros offset.
  - intros k kind n Hk. inversion Hk.
  - rewrite imap_cons. cbn [concat].
    apply numberedFrom_app.
    + intros [|[|k]] kind n Hk; cbn in Hk; try discriminate Hk;
        injection Hk as <- <-; cbn [isAppendix]; lia.
    + cbn [length].
      rewrite (imap_ext _ (fun index _ =>
         [(RoofOverview, Some (1 + (Z.of_nat (S offset + index) * 2) + 1)%Z);
          (RoofLayout, Some (1 + (Z.of_nat (S offset + index) * 2) + 2)%Z)])).
      * replace (1 + 2 * offset + 2) with (1 + 2 * S offset) by lia. apply IH.
      * intros i x _. cbn. replace (offset + S i) with (S (offset + i)) by lia. reflexivity.
Qed.


(** X10. [totalPages] is one more than the number of pages the document
    has. *)
Theorem totalPages_is_page_count_plus_one {F R : Type} (fields : list F)
    (exportOptions : ExportOptions) (materialChunks : list (list R)) :
  totalPages fields exportOptions materialChunks =
  (Z.of_nat (length (pdfPages fields exportOptions materialChunks)) + 1)%Z.
Proof.
  unfold pdfPages, totalPages. cbn zeta.
  rewrite !length_app, length_imap.
  rewrite roofPages_length by reflexivity.
  destruct exportOptions as [[] [] []]; cbn [includeDatasheets includeGuides includeRegulations length];
    lia.
Qed.


(** One roof, every option, one material page: ten pages, numbered up to 11,
    and no page 8. *)
Example pdfPages_sample :
  omap snd (pdfPages [tt]
    {| includeDatasheets := true; includeGuides := true; includeRegulations := true |} [[tt]]) =
  [2; 3; 4; 5; 6; 7; 9; 10; 11]%Z /\
  totalPages [tt]
    {| includeDatasheets := true; includeGuides := true; includeRegulations := true |} [[tt]] = 11%Z.
Proof. split; reflexivity. Qed.

(** ** More on the per-MPPT counts *)

Section CountsFacts.

Variable StringToNumber : string -> float.

Lemma stringsOn_le_length (k : Js.PropertyKey) (l : list ConfiguredString) :
  stringsOn StringToNumber k l <= length l.
Proof. unfold stringsOn. apply length_filter. Qed.

Lemma stringsOn_Permutation (k : Js.PropertyKey) (l l' : list ConfiguredString) :
  l ≡ₚ l' -> stringsOn StringToNumber k l = stringsOn StringToNumber k l'.
Proof. intros Hp. unfold stringsOn. by rewrite Hp. Qed.

Lemma maxParallel_lt (config : InverterConfig) (n : nat) :
  n < maxParallelStringsOnAnyMppt StringToNumber config <->
  exists k, n < stringsOn StringToNumber k (default [] (configuredStrings config)).
Proof.
  unfold maxParallelStringsOnAnyMppt. rewrite maxOfCounts_lt. split.
  - intros (k & v & Hkv & Hv). exists k.
    rewrite mpptParallelCounts_lookup in Hkv.
    apply someIfPositive_Some in Hkv as [-> _]. assumption.
  - intros (k & Hk). exists k. eexists. split; [| exact Hk].
    rewrite mpptParallelCounts_lookup. apply someIfPositive_Some. lia.
Qed.

(** X11. The order of the configured strings does not matter: a
    permutation of the list gives the same counts and the same fuse
    verdict. *)
Theorem counts_ignore_order (config : InverterConfig) (l l' : list ConfiguredString) :
  l ≡ₚ l' ->
  mpptParallelCounts StringToNumber (withStrings config l) =
  mpptParallelCounts StringToNumber (withStrings config l') /\
  gpvRequired StringToNumber (withStrings config l) =
  gpvRequired StringToNumber (withStrings config l').
Proof.
  intros Hp.
  assert (mpptParallelCounts StringToNumber (withStrings config l) =
          mpptParallelCounts StringToNumber (withStrings config l')) as Hc.
  { apply mpptParallelCounts_ext. intros k. by apply stringsOn_Permutation. }
  split; [exact Hc |].
  unfold gpvRequired, maxParallelStringsOnAnyMppt. rewrite Hc. reflexivity.
Qed.

(** X12. No MPPT holds more strings than are configured; with at most two
    configured strings, or none, no fuse is required. *)
Theorem maxParallel_at_most_string_count (config : InverterConfig) :
  maxParallelStringsOnAnyMppt StringToNumber config <=
    length (default [] (configuredStrings config)) /\
  (length (default [] (configuredStrings config)) <= 2 ->
   gpvRequired StringToNumber config = false).
Proof.
  assert (maxParallelStringsOnAnyMppt StringToNumber config <=
          length (default [] (configuredStrings config))) as Hmax.
  { apply Nat.nlt_ge. intros (k & Hk)%maxParallel_lt.
    pose proof (stringsOn_le_length k (default [] (configuredStrings config))). lia. }
  split; [exact Hmax |].
  intros Hlen. unfold gpvRequired. apply Nat.ltb_ge. lia.
Qed.

(** X13. Adding a string never lifts the fuse requirement. *)
Theorem gpvRequired_kept_by_adding (config : InverterConfig) (s : ConfiguredString)
    (before after : list ConfiguredString) :
  gpvRequired StringToNumber (withStrings config (before ++ after)) = true ->
  gpvRequired StringToNumber (withStrings config (before ++ s :: after)) = true.
Proof.
  unfold gpvRequired. rewrite !Nat.ltb_lt, !maxParallel_lt.
  cbn [withStrings configuredStrings default from_option id].
  intros (k & Hk). exists k.
  rewrite stringsOn_app, stringsOn_cons. rewrite stringsOn_app in Hk. lia.
Qed.

Lemma sumOfCounts_insert (counts : gmap Js.PropertyKey nat) (k : Js.PropertyKey) (v : nat) :
  sumOfCounts (<[k := v]> counts) + default 0 (counts !! k) = sumOfCounts counts + v.
Proof.
  unfold sumOfCounts.
  assert (forall (m : gmap Js.PropertyKey nat) j1 j2 z1 z2 (y : nat),
            j1 <> j2 -> m !! j1 = Some z1 -> m !! j2 = Some z2 ->
            z1 + (z2 + y) = z2 + (z1 + y)) as Hcomm by (intros; lia).
  destruct (counts !! k) as [old|] eqn:Hk; cbn [default from_option id].
  - rewrite <- insert_delete_eq.
    rewrite map_fold_insert_L; [| apply Hcomm | apply lookup_delete_eq].
    rewrite (map_fold_delete_L _ _ k old counts); [lia | apply Hcomm | assumption].
  - rewrite map_fold_insert_L; [lia | apply Hcomm | assumption].
Qed.

Lemma foldl_countString_sum (l : list ConfiguredString) (acc : gmap Js.PropertyKey nat) :
  sumOfCounts (foldl (countString StringToNumber) acc l) = sumOfCounts acc + length l.
Proof.
  revert acc. induction l as [|s l IH]; intros acc; cbn [foldl length]; [lia |].
  rewrite IH. unfold countString. cbn zeta. rewrite orZero_id.
  pose proof (sumOfCounts_insert acc (Js.ToPropertyKey (mpptIdx StringToNumber s))
                (default 0 (acc !! Js.ToPropertyKey (mpptIdx StringToNumber s)) + 1)).
  lia.
Qed.

(** X14. Every configured string is counted once: the counts of all the
    MPPT indices add up to the number of configured strings. *)
Theorem counts_add_up_to_string_count (config : InverterConfig) :
  sumOfCounts (mpptParallelCounts StringToNumber config) =
  length (default [] (configuredStrings config)).
Proof.
  unfold mpptParallelCounts. rewrite foldl_countString_sum. reflexivity.
Qed.

End CountsFacts.

Lemma counts_ignore_order_witness :
  [sampleString (Js.Num 1); sampleString (Js.Num 2)] ≡ₚ
  [sampleString (Js.Num 2); sampleString (Js.Num 1)] /\
  mpptParallelCounts sampleStringToNumber
    (withStrings sampleConfig [sampleString (Js.Num 1); sampleString (Js.Num 2)]) =
  mpptParallelCounts sampleStringToNumber
    (withStrings sampleConfig [sampleString (Js.Num 2); sampleString (Js.Num 1)]).
Proof.
  split; [apply perm_swap |].
  apply (counts_ignore_order sampleStringToNumber sampleConfig
           [sampleString (Js.Num 1); sampleString (Js.Num 2)]
           [sampleString (Js.Num 2); sampleString (Js.Num 1)]).
  apply perm_swap.
Defined.

Lemma maxParallel_at_most_string_count_witness :
  length (default [] (configuredStrings
    (withStrings sampleConfig [sampleString (Js.Num 1); sampleString (Js.Num 1)]))) <= 2 /\
  gpvRequired sampleStringToNumber
    (withStrings sampleConfig [sampleString (Js.Num 1); sampleString (Js.Num 1)]) = false.
Proof.
  split; [cbn; lia |].
  apply (maxParallel_at_most_string_count sampleStringToNumber
           (withStrings sampleConfig [sampleString (Js.Num 1); sampleString (Js.Num 1)])).
  cbn. lia.
Defined.

Lemma gpvRequired_kept_by_adding_witness :
  gpvRequired sampleStringToNumber
    (withStrings sampleConfig
       [sampleString (Js.Num 1); sampleString (Js.Num 1); sampleString (Js.Num 1)]) = true /\
  gpvRequired sampleStringToNumber
    (withStrings sampleConfig
       [sampleString (Js.Num 1); sampleString (Js.Num 2); sampleString (Js.Num 1);
        sampleString (Js.Num 1)]) = true.
Proof.
  split; [vm_compute; reflexivity |].
  apply (gpvRequired_kept_by_adding sampleStringToNumber sampleConfig (sampleString (Js.Num 2))
           [sampleString (Js.Num 1)] [sampleString (Js.Num 1); sampleString (Js.Num 1)]).
  vm_compute. reflexivity.
Defined.

(** ** More on the margins *)

Local Open Scope Z_scope.

(** X15. Whatever the roof and the zone, the margins are symmetric (top
    equals bottom, left equals right), the top margin lies between 300 and
    600 mm, and the side margin is the top margin or up to 100 mm more; so
    every margin is positive and at most 700 mm. *)
Theorem margins_bounds (roofType : RoofType) (windZone : WindZone) :
  let m := getRecommendedMargins roofType windZone in
  top m = bottom m /\ left m = right m /\
  300 <= top m <= 600 /\
  top m <= left m <= top m + 100.
Proof.
  destruct roofType, windZone; cbn; lia.
Qed.

(** X16. A more severe wind zone never gives a smaller margin, on any side,
    for the same roof. *)
Theorem margins_monotone_in_zone (roofType : RoofType) (windZone windZone' : WindZone) :
  zoneSeverity windZone <= zoneSeverity windZone' ->
  top (getRecommendedMargins roofType windZone) <= top (getRecommendedMargins roofType windZone') /\
  bottom (getRecommendedMargins roofType windZone) <= bottom (getRecommendedMargins roofType windZone') /\
  left (getRecommendedMargins roofType windZone) <= left (getRecommendedMargins roofType windZone') /\
  right (getRecommendedMargins roofType windZone) <= right (getRecommendedMargins roofType windZone').
Proof.
  destruct roofType, windZone, windZone'; cbn; lia.
Qed.

Lemma margins_monotone_in_zone_witness :
  zoneSeverity ZONE_2 <= zoneSeverity ZONE_4 /\
  left (getRecommendedMargins TUILE_CANAL ZONE_2) <= left (getRecommendedMargins TUILE_CANAL ZONE_4).
Proof.
  split; [cbn; lia |].
  apply (margins_monotone_in_zone TUILE_CANAL ZONE_2 ZONE_4). cbn. lia.
Defined.

Local Close Scope Z_scope.

(** ** More on the value fallbacks *)

Lemma or_truthy (a b : Js.Value) : Js.ToBoolean b = true -> Js.ToBoolean (Js.or a b) = true.
Proof. intros Hb. unfold Js.or. destruct (Js.ToBoolean a) eqn:Ha; assumption. Qed.

Lemma or_zero (a : Js.Value) :
  Js.ToBoolean (Js.or a (Js.Num 0)) = true \/ Js.or a (Js.Num 0) = Js.Num 0.
Proof. unfold Js.or. destruct (Js.ToBoolean a) eqn:Ha; auto. Qed.

(** X17. The limits shown are never falsy, whatever the report holds: never
    0, [NaN], [undefined], [null] or an empty string.  The voltages shown
    are truthy or exactly 0, so never [undefined], [null] or [NaN]. *)
Theorem fallbacks_never_missing (report : option CompatibilityReport) (isThreePhase : bool) :
  Js.ToBoolean (invVmaxLimit report isThreePhase) = true /\
  Js.ToBoolean (invVmpMin report) = true /\
  (Js.ToBoolean (vocColdString report) = true \/ vocColdString report = Js.Num 0) /\
  (Js.ToBoolean (vmpHotString report) = true \/ vmpHotString report = Js.Num 0).
Proof.
  split; [| split; [| split]].
  - apply or_truthy. destruct isThreePhase; reflexivity.
  - apply or_truthy. reflexivity.
  - apply or_zero.
  - apply or_zero.
Qed.

(** ** The order of numbers *)

Lemma SFleb_rank (a b : spec_float) :
  a <> S754_nan -> b <> S754_nan ->
  SFleb a b = true <-> rankLe (rankOfSpec a) (rankOfSpec b).
Proof.
  intros Ha Hb. unfold SFleb, rankLe.
  destruct a as [[]|[]| |[] m e], b as [[]|[]| |[] m' e']; try congruence;
    cbn [SFcompare rankOfSpec fst snd];
    try (split; [intros _; lia | reflexivity]);
    try (split; [discriminate | intros H; exfalso; lia]);
    rewrite Pos.compare_cont_spec; cbn [Pos.switch_Eq];
    destruct (Z.compare_spec e e') as [He|He|He],
             (Pos.compare_spec m m') as [Hm|Hm|Hm]; cbn [CompOpp];
    (split; [intros H; try discriminate H; lia | intros H; try reflexivity; exfalso; lia]).
Qed.

Lemma SFltb_rank (a b : spec_float) :
  a <> S754_nan -> b <> S754_nan ->
  SFltb a b = true <-> ~ rankLe (rankOfSpec b) (rankOfSpec a).
Proof.
  intros Ha Hb. unfold SFltb, rankLe.
  destruct a as [[]|[]| |[] m e], b as [[]|[]| |[] m' e']; try congruence;
    cbn [SFcompare rankOfSpec fst snd];
    try (split; [intros _; lia | reflexivity]);
    try (split; [discriminate | intros H; exfalso; lia]);
    rewrite Pos.compare_cont_spec; cbn [Pos.switch_Eq];
    destruct (Z.compare_spec e e') as [He|He|He],
             (Pos.compare_spec m m') as [Hm|Hm|Hm]; cbn [CompOpp];
    (split; [intros H; try discriminate H; lia | intros H; try reflexivity; exfalso; lia]).
Qed.

Lemma is_nan_false_spec (x : float) :
  PrimFloat.is_nan x = false <-> Prim2SF x <> S754_nan.
Proof.
  rewrite <- not_true_iff_false, is_nan_key. unfold Js.ToPropertyKey.
  destruct (Prim2SF x); cbn [Js.keyOfSpec]; split; congruence.
Qed.

Lemma leb_rank (x y : float) :
  PrimFloat.is_nan x = false -> PrimFloat.is_nan y = false ->
  PrimFloat.leb x y = true <-> rankLe (rankOfSpec (Prim2SF x)) (rankOfSpec (Prim2SF y)).
Proof.
  intros Hx%is_nan_false_spec Hy%is_nan_false_spec. rewrite leb_spec. by apply SFleb_rank.
Qed.

Lemma ltb_rank (x y : float) :
  PrimFloat.is_nan x = false -> PrimFloat.is_nan y = false ->
  PrimFloat.ltb x y = true <-> ~ rankLe (rankOfSpec (Prim2SF y)) (rankOfSpec (Prim2SF x)).
Proof.
  intros Hx%is_nan_false_spec Hy%is_nan_false_spec. rewrite ltb_spec. by apply SFltb_rank.
Qed.

Lemma rankLe_refl (a : Z * Z * Z) : rankLe a a.
Proof. unfold rankLe. lia. Qed.

Lemma rankLe_trans (a b c : Z * Z * Z) : rankLe a b -> rankLe b c -> rankLe a c.
Proof. unfold rankLe. lia. Qed.

Lemma rankLe_total (a b : Z * Z * Z) : ~ rankLe a b -> rankLe b a.
Proof. unfold rankLe. lia. Qed.

Lemma rank_zero (x : float) :
  Js.ToPropertyKey x = Js.KeyZero -> rankOfSpec (Prim2SF x) = (0, 0, 0)%Z.
Proof.
  unfold Js.ToPropertyKey. destruct (Prim2SF x) as [|[]| |[]]; try discriminate. reflexivity.
Qed.

Lemma orNumber_not_nan (x : float) : PrimFloat.is_nan (Js.orNumber x 0) = false.
Proof.
  unfold Js.orNumber, Js.truthyNumber.
  destruct (PrimFloat.eqb x 0); cbn [orb negb]; [reflexivity |].
  destruct (PrimFloat.is_nan x) eqn:Hn; cbn [negb]; [reflexivity | assumption].
Qed.

(** A step of [Math.max] on two numbers gives a number, at least both, and
    one of the two up to the sign of zero. *)
Lemma max2_spec (h x : float) :
  PrimFloat.is_nan h = false -> PrimFloat.is_nan x = false ->
  PrimFloat.is_nan (Js.max2 h x) = false /\
  rankLe (rankOfSpec (Prim2SF h)) (rankOfSpec (Prim2SF (Js.max2 h x))) /\
  rankLe (rankOfSpec (Prim2SF x)) (rankOfSpec (Prim2SF (Js.max2 h x))) /\
  (Js.ToPropertyKey (Js.max2 h x) = Js.ToPropertyKey h \/
   Js.ToPropertyKey (Js.max2 h x) = Js.ToPropertyKey x).
Proof.
  intros Hh Hx. unfold Js.max2. rewrite Hh, Hx. cbn [orb].
  destruct (Js.isPositiveZero x && Js.isNegativeZero h) eqn:Hz.
  - apply andb_true_iff in Hz as [Hzx%isPositiveZero_key Hzh%isNegativeZero_key].
    rewrite (rank_zero _ Hzx), (rank_zero _ Hzh).
    change (rankOfSpec (Prim2SF 0)) with (0, 0, 0)%Z.
    split; [reflexivity |]. split; [apply rankLe_refl |]. split; [apply rankLe_refl |].
    left. rewrite Hzh. reflexivity.
  - destruct (PrimFloat.ltb h x) eqn:Hlt.
    + apply ltb_rank in Hlt; [| assumption | assumption].
      split; [assumption |]. split; [by apply rankLe_total |].
      split; [apply rankLe_refl | by right].
    + apply not_true_iff_false in Hlt. rewrite ltb_rank in Hlt by assumption.
      split; [assumption |]. split; [apply rankLe_refl |].
      split; [| by left].
      unfold rankLe in *. lia.
Qed.

Lemma fold_max2_spec (xs : list float) (h : float) :
  PrimFloat.is_nan h = false ->
  (forall x, x ∈ xs -> PrimFloat.is_nan x = false) ->
  PrimFloat.is_nan (fold_left Js.max2 xs h) = false /\
  rankLe (rankOfSpec (Prim2SF h)) (rankOfSpec (Prim2SF (fold_left Js.max2 xs h))) /\
  (forall x, x ∈ xs ->
     rankLe (rankOfSpec (Prim2SF x)) (rankOfSpec (Prim2SF (fold_left Js.max2 xs h)))) /\
  (Js.ToPropertyKey (fold_left Js.max2 xs h) = Js.ToPropertyKey h \/
   exists x, x ∈ xs /\ Js.ToPropertyKey (fold_left Js.max2 xs h) = Js.ToPropertyKey x).
Proof.
  revert h. induction xs as [|x xs IH]; intros h Hh Hxs; cbn [fold_left].
  - split; [assumption |]. split; [apply rankLe_refl |].
    split; [intros x Hx; inversion Hx | by left].
  - assert (PrimFloat.is_nan x = false) as Hx by (apply Hxs; by left).
    destruct (max2_spec h x Hh Hx) as (Hn & Hge_h & Hge_x & Hone).
    destruct (IH (Js.max2 h x) Hn) as (Hn' & Hge & Hall & Hsome).
    { intros y Hy. apply Hxs. by right. }
    split; [assumption |].
    split; [by apply (rankLe_trans _ _ _ Hge_h) |].
    split.
    + intros y [-> | Hy]%elem_of_cons.
      * by apply (rankLe_trans _ _ _ Hge_x).
      * by apply Hall.
    + destruct Hsome as [Hk | (y & Hy & Hk)].
      * destruct Hone as [Hone | Hone].
        -- left. congruence.
        -- right. exists x. split; [by left | congruence].
      * right. exists y. split; [by right | assumption].
Qed.

Lemma worstBranchDrop_has (microBranchesReport : option MicroBranchesReport) :
  branchList microBranchesReport <> [] ->
  worstBranchDrop microBranchesReport =
  fold_left Js.max2 (map (fun b => Js.orNumber (dropPercent b) 0) (branchList microBranchesReport))
            neg_infinity.
Proof.
  intros Hl. unfold worstBranchDrop.
  rewrite (proj2 (hasMicroBranches_branchList _) Hl). reflexivity.
Qed.

Lemma branch_drops_not_nan (bs : list MicroBranch) (x : float) :
  x ∈ map (fun b => Js.orNumber (dropPercent b) 0) bs -> PrimFloat.is_nan x = false.
Proof.
  intros (b & -> & _)%list_elem_of_fmap. apply orNumber_not_nan.
Qed.

Lemma worstBranchDrop_not_nan_aux (microBranchesReport : option MicroBranchesReport) :
  PrimFloat.is_nan (worstBranchDrop microBranchesReport) = false.
Proof.
  unfold worstBranchDrop. destruct (hasMicroBranches microBranchesReport); [| reflexivity].
  apply fold_max2_spec; [reflexivity |]. apply branch_drops_not_nan.
Qed.

(** X18. The worst branch drop is never [NaN], whatever the branches hold,
    a [NaN] drop included. *)
Theorem worstBranchDrop_not_nan (microBranchesReport : option MicroBranchesReport) :
  PrimFloat.is_nan (worstBranchDrop microBranchesReport) = false.
Proof. apply worstBranchDrop_not_nan_aux. Qed.

(** X19. The worst branch drop is at least the drop of every branch, a
    missing or [NaN] drop counting as 0. *)
Theorem worstBranchDrop_upper_bound (microBranchesReport : option MicroBranchesReport)
    (b : MicroBranch) :
  b ∈ branchList microBranchesReport ->
  PrimFloat.leb (Js.orNumber (dropPercent b) 0) (worstBranchDrop microBranchesReport) = true.
Proof.
  intros Hb.
  assert (branchList microBranchesReport <> []) as Hl by (intros Hnil; rewrite Hnil in Hb; inversion Hb).
  apply leb_rank; [apply orNumber_not_nan | apply worstBranchDrop_not_nan_aux |].
  rewrite (worstBranchDrop_has _ Hl).
  apply fold_max2_spec; [reflexivity | apply branch_drops_not_nan |].
  apply list_elem_of_fmap. by exists b.
Qed.

Lemma worstBranchDrop_upper_bound_witness :
  {| branchId := "b2"; name := "Branche 2"; dropPercent := 0.75 |} ∈ branchList sampleBranches /\
  PrimFloat.leb (Js.orNumber 0.75 0) (worstBranchDrop sampleBranches) = true.
Proof.
  split; [cbn; right; left |].
  apply (worstBranchDrop_upper_bound sampleBranches
           {| branchId := "b2"; name := "Branche 2"; dropPercent := 0.75 |}).
  cbn. right. left.
Defined.

Lemma rank_neg_infinity (x : float) :
  PrimFloat.is_nan x = false ->
  rankLe (rankOfSpec (Prim2SF x)) (rankOfSpec (Prim2SF neg_infinity)) ->
  Js.ToPropertyKey x = Js.ToPropertyKey neg_infinity.
Proof.
  intros Hx%is_nan_false_spec. unfold Js.ToPropertyKey.
  change (Prim2SF neg_infinity) with (S754_infinity true).
  unfold rankLe. destruct (Prim2SF x) as [|[]| |[]]; cbn; try congruence; lia.
Qed.

(** X20. With at least one branch, the worst branch drop is the drop of one
    of the branches, a missing or [NaN] drop counting as 0. *)
Theorem worstBranchDrop_attained (microBranchesReport : option MicroBranchesReport) :
  branchList microBranchesReport <> [] ->
  exists b, b ∈ branchList microBranchesReport /\
    Js.SameValueZero (Js.orNumber (dropPercent b) 0) (worstBranchDrop microBranchesReport) = true.
Proof.
  intros Hl. rewrite (worstBranchDrop_has _ Hl).
  destruct (fold_max2_spec
              (map (fun b => Js.orNumber (dropPercent b) 0) (branchList microBranchesReport))
              neg_infinity eq_refl (branch_drops_not_nan _)) as (_ & _ & Hall & Hsome).
  destruct Hsome as [Hk | (x & (b & -> & Hb)%list_elem_of_fmap & Hk)].
  - destruct (branchList microBranchesReport) as [|b bs] eqn:Hbs; [congruence |].
    exists b. split; [by left |]. apply SameValueZero_key. rewrite Hk.
    apply rank_neg_infinity; [apply orNumber_not_nan |].
    assert (Js.orNumber (dropPercent b) 0 ∈
            map (fun b => Js.orNumber (dropPercent b) 0) (b :: bs)) as Hin by (by left).
    apply Hall in Hin. unfold Js.ToPropertyKey in Hk.
    destruct (Prim2SF (fold_left Js.max2
                (map (fun b => Js.orNumber (dropPercent b) 0) (b :: bs)) neg_infinity))
      as [|[]| |[]]; try discriminate Hk; exact Hin.
  - exists b. split; [assumption |]. apply SameValueZero_key. symmetry. exact Hk.
Qed.

Lemma worstBranchDrop_attained_witness :
  branchList sampleBranches <> [] /\
  exists b, b ∈ branchList sampleBranches /\
    Js.SameValueZero (Js.orNumber (dropPercent b) 0) (worstBranchDrop sampleBranches) = true.
Proof.
  split; [discriminate |].
  apply (worstBranchDrop_attained sampleBranches). discriminate.
Defined.

(** ** The inverter documents *)

Section ProjectDocsFacts.

Variable FOXESS ENPHASE APSYSTEMS : string.

Lemma genericInvUrl_not_empty (brand : string) :
  genericInvUrl FOXESS ENPHASE APSYSTEMS brand <> "".
Proof.
  unfold genericInvUrl. cbn zeta.
  destruct (String.eqb brand FOXESS); [discriminate |].
  destruct (String.eqb brand ENPHASE); [discriminate |].
  destruct (String.eqb brand APSYSTEMS); discriminate.
Qed.

Lemma orUrl_not_empty (url : option string) (fallback : string) :
  fallback <> "" -> orUrl url fallback <> "".
Proof.
  intros Hf. unfold orUrl. destruct url as [s|]; [| assumption].
  destruct (String.eqb_spec s ""); assumption.
Qed.

(** X21. The data sheet and manual links of the inverter, and the generic
    link, are never empty: whatever the brand, and whether the catalogue has
    the model, lacks it, or has it with a missing or empty URL. *)
Theorem inverter_links_not_empty (allInverters : list Component.t) (brand model : string) :
  let docs := inverterDocs FOXESS ENPHASE APSYSTEMS allInverters brand model in
  InverterDocs.datasheet docs <> "" /\
  InverterDocs.manual docs <> "" /\
  InverterDocs.genericUrl docs <> "".
Proof.
  cbn. split; [| split].
  - apply orUrl_not_empty, genericInvUrl_not_empty.
  - apply orUrl_not_empty, genericInvUrl_not_empty.
  - apply genericInvUrl_not_empty.
Qed.

(** X22. A model the catalogue does not have is shown under its raw
    identifier, with the generic link of the brand for data sheet and manual
    and no video; a model the catalogue has is shown under the description of
    the first component that carries its identifier. *)
Theorem inverter_docs_by_catalogue (allInverters : list Component.t) (brand model : string) :
  let docs := inverterDocs FOXESS ENPHASE APSYSTEMS allInverters brand model in
  ((forall c, c ∈ allInverters -> Component.id c <> model) ->
   InverterDocs.model docs = model /\
   InverterDocs.datasheet docs = InverterDocs.genericUrl docs /\
   InverterDocs.manual docs = InverterDocs.genericUrl docs /\
   InverterDocs.video docs = None) /\
  (forall before c after,
     allInverters = before ++ c :: after ->
     Component.id c = model ->
     (forall c', c' ∈ before -> Component.id c' <> model) ->
     InverterDocs.model docs = Component.description c).
Proof.
  cbn. split.
  - intros Hnone.
    assert (selectedInv allInverters model = None) as ->; [| by cbn].
    unfold selectedInv. induction allInverters as [|c cs IH]; [reflexivity |].
    cbn [List.find]. rewrite (proj2 (String.eqb_neq _ _)) by (apply Hnone; by left).
    apply IH. intros c' Hc'. apply Hnone. by right.
  - intros before c after -> Hc Hbefore.
    assert (selectedInv (before ++ c :: after) model = Some c) as ->; [| reflexivity].
    unfold selectedInv. induction before as [|c' before IH]; cbn [app List.find].
    + rewrite (proj2 (String.eqb_eq _ _) Hc). reflexivity.
    + rewrite (proj2 (String.eqb_neq _ _)) by (apply Hbefore; by left).
      apply IH. intros c'' Hc''. apply Hbefore. by right.
Qed.

End ProjectDocsFacts.

Lemma inverter_docs_by_catalogue_witness :
  (forall c, c ∈ sampleCatalogue -> Component.id c <> "X3-5.0") /\
  InverterDocs.model (inverterDocs "FoxESS" "Enphase" "APSystems" sampleCatalogue "FoxESS" "X3-5.0")
    = "X3-5.0" /\
  InverterDocs.datasheet (inverterDocs "FoxESS" "Enphase" "APSystems" sampleCatalogue "FoxESS" "X3-5.0")
    = "https://fr.fox-ess.com/download/".
Proof.
  assert (forall c, c ∈ sampleCatalogue -> Component.id c <> "X3-5.0") as Hnone.
  { intros c [-> | Hc]%elem_of_cons; [discriminate | inversion Hc]. }
  split; [exact Hnone |].
  destruct (inverter_docs_by_catalogue "FoxESS" "Enphase" "APSystems" sampleCatalogue
              "FoxESS" "X3-5.0") as [Hmiss _].
  destruct (Hmiss Hnone) as (Hmodel & Hsheet & _).
  split; [exact Hmodel | exact Hsheet].
Defined.

Example inverterDocs_sample :
  let docs := inverterDocs "FoxESS" "Enphase" "APSystems" sampleCatalogue "FoxESS" "H1-3.0-E" in
  InverterDocs.model docs = "Onduleur hybride H1 3 kW" /\
  InverterDocs.datasheet docs = "https://fr.fox-ess.com/h1/" /\
  InverterDocs.manual docs = "https://fr.fox-ess.com/download/".
Proof. cbn. repeat split; reflexivity. Qed.

(** ** The cumulated production drop, with its guards *)

Lemma orNumber_nan (x : float) :
  PrimFloat.is_nan x = true -> Js.orNumber x 0 = 0%float.
Proof.
  intros Hn. unfold Js.orNumber, Js.truthyNumber. rewrite Hn, orb_true_r. reflexivity.
Qed.

Lemma worstBranchDrop_isMaximum (microBranchesReport : option MicroBranchesReport) :
  branchList microBranchesReport <> [] ->
  isMaximumOf (worstBranchDrop microBranchesReport)
    (map (fun b => Js.orNumber (dropPercent b) 0) (branchList microBranchesReport)).
Proof.
  intros Hl. rewrite (worstBranchDrop_has _ Hl).
  destruct (fold_max2_spec
              (map (fun b => Js.orNumber (dropPercent b) 0) (branchList microBranchesReport))
              neg_infinity eq_refl (branch_drops_not_nan _)) as (Hn & _ & Hall & Hsome).
  split.
  - destruct Hsome as [Hk | (x & Hx & Hk)].
    + destruct (branchList microBranchesReport) as [|b bs] eqn:Hbs; [congruence |].
      exists (Js.orNumber (dropPercent b) 0). split; [by left |].
      apply SameValueZero_key. rewrite Hk.
      apply rank_neg_infinity; [apply orNumber_not_nan |].
      assert (Js.orNumber (dropPercent b) 0 ∈
              map (fun b => Js.orNumber (dropPercent b) 0) (b :: bs)) as Hin by (by left).
      apply Hall in Hin. unfold Js.ToPropertyKey in Hk.
      destruct (Prim2SF (fold_left Js.max2
                  (map (fun b => Js.orNumber (dropPercent b) 0) (b :: bs)) neg_infinity))
        as [|[]| |[]]; try discriminate Hk; exact Hin.
    + exists x. split; [assumption |]. apply SameValueZero_key. symmetry. exact Hk.
  - intros x Hx. apply leb_rank; [| assumption | by apply Hall].
    by apply (branch_drops_not_nan (branchList microBranchesReport)).
Qed.

(** C3, as the code has it.  With at least one branch, the cumulated
    production drop is the maximum over the branches of [dropPercent || 0]
    plus [voltageDrop || 0]; with no branch it is [voltageDrop || 0] alone.
    The guard [x || 0] is [x] for every number other than [NaN], up to the
    sign of zero, and 0 for [NaN]. *)
Theorem totalProductionDrop_guarded_worst_plus_feeder
    (microBranchesReport : option MicroBranchesReport) (voltageDrop : float) :
  (forall x : float,
     (PrimFloat.is_nan x = false -> Js.SameValueZero (Js.orNumber x 0) x = true) /\
     (PrimFloat.is_nan x = true -> Js.orNumber x 0 = 0%float)) /\
  (branchList microBranchesReport <> [] ->
   exists worst : float,
     isMaximumOf worst
       (map (fun b => Js.orNumber (dropPercent b) 0) (branchList microBranchesReport)) /\
     totalProductionDrop microBranchesReport voltageDrop =
     PrimFloat.add worst (Js.orNumber voltageDrop 0)) /\
  (branchList microBranchesReport = [] ->
   totalProductionDrop microBranchesReport voltageDrop = Js.orNumber voltageDrop 0).
Proof.
  split; [| split].
  - intros x. split.
    + intros Hx. apply SameValueZero_key. by apply orNumber_key.
    + apply orNumber_nan.
  - intros Hl. exists (worstBranchDrop microBranchesReport).
    split; [by apply worstBranchDrop_isMaximum |].
    unfold totalProductionDrop.
    rewrite (proj2 (hasMicroBranches_branchList _) Hl). reflexivity.
  - intros Hl. unfold totalProductionDrop.
    destruct (hasMicroBranches microBranchesReport) eqn:Hh; [| reflexivity].
    apply hasMicroBranches_branchList in Hh. contradiction.
Qed.

Lemma totalProductionDrop_guarded_worst_plus_feeder_witness :
  branchList sampleBranches <> [] /\
  (exists worst : float,
     isMaximumOf worst
       (map (fun b => Js.orNumber (dropPercent b) 0) (branchList sampleBranches)) /\
     totalProductionDrop sampleBranches 0.5 = PrimFloat.add worst (Js.orNumber 0.5 0)) /\
  totalProductionDrop None nan = 0%float.
Proof.
  split; [discriminate |].
  destruct (totalProductionDrop_guarded_worst_plus_feeder sampleBranches 0.5) as (_ & Hsome & _).
  destruct (totalProductionDrop_guarded_worst_plus_feeder None nan) as (_ & _ & Hnone).
  split; [apply Hsome; discriminate | apply Hnone; reflexivity].
Defined.

(** The claim without the guards fails on [NaN].  One branch whose drop is
    0.5, its maximum, and a feeder drop of [NaN]: the cumulated drop is 0.5,
    not 0.5 plus [NaN].  One branch whose drop is [NaN] and a feeder drop of
    0.5: the cumulated drop is 0.5, not [NaN]. *)
Lemma totalProductionDrop_unguarded_counterexample :
  isMaximumOf 0.5 (map dropPercent (branchList sampleOneBranch)) /\
  totalProductionDrop sampleOneBranch nan = 0.5%float /\
  Js.SameValueZero (totalProductionDrop sampleOneBranch nan) (PrimFloat.add 0.5 nan) = false /\
  totalProductionDrop sampleNanBranch 0.5 = 0.5%float /\
  Js.SameValueZero (totalProductionDrop sampleNanBranch 0.5)
    (PrimFloat.add (Js.Math_max (map dropPercent (branchList sampleNanBranch))) 0.5) = false.
Proof.
  split.
  - split.
    + exists 0.5%float. split; [by left | reflexivity].
    + intros x [-> | Hx]%elem_of_cons; [reflexivity | inversion Hx].
  - repeat split; vm_compute; reflexivity.
Qed.
